(** * AI shopping companion: the conversational filter machine and the
    retrieval / scoring / ranking pipeline of [services.py]

    The development embeds [AIShoppingService] (services.py) shallowly:

    - Python dictionaries with a fixed universe of keys (a product, a
      session, a response) are records whose fields are optional where the
      key may be absent; the insertion-ordered [current_filters] dictionary
      is an association list; [user_sessions] is a [gmap];
    - text is a byte string holding UTF-8, and the [str] builtins used by the
      service ([lower], [strip], [title], [in], [replace], [split], [int])
      are written out on ASCII, which is how CPython treats ASCII text;
    - floats are the kernel's binary64 floats, the ones CPython computes with;
    - the three external ports (query interpretation, product search,
      relevance scoring) are oracles passed with each call, one answer per
      request; [uuid.uuid4] is a supply of fresh identifiers threaded as a
      counter; exceptions are a [result] type and every [try]/[except] of the
      source is a [match] on it;
    - log output and the [timestamp] field of a response (wall-clock time)
      are left out. *)

From Stdlib Require Import ZArith List Ascii Floats Uint63 Bool Lia.
From Stdlib Require Import Permutation Sorted DecimalString.
From stdpp Require Import gmap strings.

Set Warnings "-inexact-float".

(** ** Python string builtins *)

Module Str.

Definition nl : string := String (ascii_of_nat 10) EmptyString.

Definition is_upper (c : ascii) : bool :=
  let n := nat_of_ascii c in (65 <=? n) && (n <=? 90).

Definition is_lower (c : ascii) : bool :=
  let n := nat_of_ascii c in (97 <=? n) && (n <=? 122).

Definition to_lower (c : ascii) : ascii :=
  if is_upper c then ascii_of_nat (nat_of_ascii c + 32) else c.

Definition to_upper (c : ascii) : ascii :=
  if is_lower c then ascii_of_nat (nat_of_ascii c - 32) else c.

(** [s.lower()] *)
Fixpoint lower (s : string) : string :=
  match s with
  | EmptyString => EmptyString
  | String c r => String (to_lower c) (lower r)
  end.

(** [s.title()]: a cased character is upper-cased when the previous
    character is not cased, lower-cased otherwise. *)
Fixpoint title_from (prev_cased : bool) (s : string) : string :=
  match s with
  | EmptyString => EmptyString
  | String c r =>
      if is_upper c || is_lower c
      then String (if prev_cased then to_lower c else to_upper c)
                  (title_from true r)
      else String c (title_from false r)
  end.

Definition title (s : string) : string := title_from false s.

Fixpoint startswith (p s : string) : bool :=
  match p, s with
  | EmptyString, _ => true
  | String a p', String b s' => Ascii.eqb a b && startswith p' s'
  | String _ _, EmptyString => false
  end.

(** [sub in s] *)
Fixpoint contains (sub s : string) : bool :=
  startswith sub s
  || match s with
     | EmptyString => false
     | String _ r => contains sub r
     end.

(** [s.replace(old, new)] for a non-empty [old] (the service only replaces
    the rupee sign and the comma): occurrences are found left to right and
    do not overlap; [skip] counts the bytes of a matched [old] still to be
    dropped. *)
Fixpoint replace_from (skip : nat) (old new s : string) : string :=
  match s with
  | EmptyString => EmptyString
  | String c r =>
      match skip with
      | S k => replace_from k old new r
      | O =>
          if startswith old s
          then new +:+ replace_from (String.length old - 1) old new r
          else String c (replace_from 0 old new r)
      end
  end.

Definition replace (old new s : string) : string := replace_from 0 old new s.

(** [s.split(sep)] for a non-empty [sep]; [cur] is the piece being read. *)
Fixpoint split_from (skip : nat) (sep cur s : string) : list string :=
  match s with
  | EmptyString => [cur]
  | String c r =>
      match skip with
      | S k => split_from k sep cur r
      | O =>
          if startswith sep s
          then cur :: split_from (String.length sep - 1) sep EmptyString r
          else split_from 0 sep (cur +:+ String c EmptyString) r
      end
  end.

Definition split (sep s : string) : list string :=
  split_from 0 sep EmptyString s.

(** Whitespace of [str.strip()] within ASCII: TAB, LF, VT, FF, CR, the
    separators 0x1c to 0x1f and the space. *)
Definition is_space (c : ascii) : bool :=
  let n := nat_of_ascii c in
  ((9 <=? n) && (n <=? 13)) || ((28 <=? n) && (n <=? 32)).

Fixpoint lstrip (s : string) : string :=
  match s with
  | EmptyString => EmptyString
  | String c r => if is_space c then lstrip r else s
  end.

Definition reverse (s : string) : string :=
  String.string_of_list_ascii (rev (String.list_ascii_of_string s)).

Definition rstrip (s : string) : string := reverse (lstrip (reverse s)).

(** [s.strip()] *)
Definition strip (s : string) : string := rstrip (lstrip s).

(** [sep.join(parts)] *)
Fixpoint join (sep : string) (parts : list string) : string :=
  match parts with
  | [] => EmptyString
  | [p] => p
  | p :: rest => p +:+ sep +:+ join sep rest
  end.

Definition digit_of (c : ascii) : option Z :=
  let n := nat_of_ascii c in
  if (48 <=? n) && (n <=? 57) then Some (Z.of_nat (n - 48)) else None.

(** The digits of an [int] literal: decimal digits, with single
    underscores allowed between two digits. *)
Fixpoint parse_digits (s : string) (acc : Z) (prev_digit : bool) : option Z :=
  match s with
  | EmptyString => if prev_digit then Some acc else None
  | String c r =>
      match digit_of c with
      | Some d => parse_digits r (10 * acc + d)%Z true
      | None =>
          if Ascii.eqb c "_" && prev_digit
          then parse_digits r acc false
          else None
      end
  end.

(** [int(s)]: [None] stands for [ValueError]. *)
Definition int (s : string) : option Z :=
  match strip s with
  | String "+" r => parse_digits r 0%Z false
  | String "-" r => Z.opp <$> parse_digits r 0%Z false
  | t => parse_digits t 0%Z false
  end.

(** [str(n)] for a length. *)
Definition of_nat (n : nat) : string := NilZero.string_of_uint (Nat.to_uint n).

(** [str(n)] for a status code. *)
Definition of_Z (n : Z) : string := NilZero.string_of_int (Z.to_int n).

(** [x in xs] for a list of strings. *)
Definition mem (x : string) (xs : list string) : bool :=
  existsb (String.eqb x) xs.

(** [any(w in s for w in words)] *)
Definition any_in (words : list string) (s : string) : bool :=
  existsb (fun w => contains w s) words.

End Str.

(** ** Exceptions *)

Inductive exn : Type :=
| IndexError
| TypeError
| Exception (msg : string).

Inductive result (A : Type) : Type :=
| Ok (a : A)
| Raise (e : exn).

Arguments Ok {A} a.
Arguments Raise {A} e.

(** ** Data model *)

(** One entry of [shopping_results] as the search port returns it; only the
    keys the service reads. [None] is an absent key. *)
Record raw_result : Type := {
  r_title : option string;
  r_price : option string;
  r_snippet : option string;
  r_thumbnail : option string;
  r_rating : option float;
  r_reviews : option Z;
  r_source : option string;
  r_link : option string
}.

Definition uuid : Type := nat.

(** A product dictionary. Candidates, scored candidates and the formatted
    products of the ranker are all dictionaries over these keys; [None] is
    an absent key (for [rating] and [reviews_count], which the service only
    reads with [.get(key)], also a key holding [None]). *)
Record product : Type := {
  id : option uuid;
  title : option string;
  description : option string;
  price : option string;
  currency : option string;
  image_url : option string;
  rating : option float;
  reviews_count : option Z;
  availability : option string;
  source : option string;
  url : option string;
  relevance_score : option float;
  explanation : option string;
  raw_data : option raw_result
}.

(** [product["explanation"] = e] *)
Definition set_explanation (e : string) (p : product) : product :=
  {| id := id p; title := title p; description := description p;
     price := price p; currency := currency p; image_url := image_url p;
     rating := rating p; reviews_count := reviews_count p;
     availability := availability p; source := source p; url := url p;
     relevance_score := relevance_score p; explanation := Some e;
     raw_data := raw_data p |}.

(** The decoded answer of the scoring port, a dictionary that may hold
    [relevance_score] and [explanation]. *)
Record analysis : Type := {
  a_relevance_score : option float;
  a_explanation : option string
}.

(** [product.update(a)]: the keys present in [a] overwrite those of the
    product. *)
Definition update (a : analysis) (p : product) : product :=
  {| id := id p; title := title p; description := description p;
     price := price p; currency := currency p; image_url := image_url p;
     rating := rating p; reviews_count := reviews_count p;
     availability := availability p; source := source p; url := url p;
     relevance_score :=
       match a_relevance_score a with
       | Some s => Some s
       | None => relevance_score p
       end;
     explanation :=
       match a_explanation a with
       | Some e => Some e
       | None => explanation p
       end;
     raw_data := raw_data p |}.

Record shopping_filter : Type := {
  name : string;
  param : string;
  options : list string
}.

(** A session dictionary of [user_sessions]. *)
Record session : Type := {
  stage : string;
  product_keyword : option string;
  current_filters : list (string * string);
  available_filters : list shopping_filter;
  current_filter_index : nat
}.

(** The dictionary a session is created with and reset to. *)
Definition fresh_session : session :=
  {| stage := "initial"; product_keyword := None; current_filters := [];
     available_filters := []; current_filter_index := 0 |}.

(** The insertion-ordered dictionary [current_filters]. *)
Fixpoint dict_get (k : string) (d : list (string * string)) : option string :=
  match d with
  | [] => None
  | (k', v) :: r => if String.eqb k k' then Some v else dict_get k r
  end.

(** [d[k] = v]: an existing key keeps its position, a new key goes last. *)
Fixpoint dict_set (k v : string) (d : list (string * string))
  : list (string * string) :=
  match d with
  | [] => [(k, v)]
  | (k', v') :: r =>
      if String.eqb k k' then (k, v) :: r else (k', v') :: dict_set k v r
  end.

(** The dictionary [process_chat_message] returns. *)
Record chat_response : Type := {
  message : string;
  has_products : bool;
  products : list product;
  filter_options : option (list string);
  filter_name : option string
}.

(** The dictionary [process_search_query] returns. *)
Record search_response : Type := {
  sr_products : list product;
  sr_explanation : string;
  sr_search_id : uuid
}.

(** The decoded answer of the interpretation port; only [product_type] is
    read. *)
Record parsed_query : Type := {
  product_type : option string
}.

(** ** The external ports *)

(** The query parameters of a product search that vary ([engine], [api_key],
    [num], [gl] and [hl] are constants). *)
Record search_params : Type := {
  q : string;
  min_price : option string;
  max_price : option string
}.

(** What a port call comes back with: status 200 and a body, another
    status, or an exception of the transport. For the two language-model
    ports the body is the decoded content, [None] when [json.loads] raises
    [JSONDecodeError]; for the search port it is [shopping_results]. *)
Inductive http (A : Type) : Type :=
| Http200 (body : A)
| HttpStatus (code : Z)
| HttpFailure (e : exn).

Arguments Http200 {A} body.
Arguments HttpStatus {A} code.
Arguments HttpFailure {A} e.

Record ports : Type := {
  phi3_post : string -> http (option parsed_query);
  serpapi_get : search_params -> http (list raw_result);
  ai_session : bool;
  ai_post : nat -> string -> product -> http (option analysis)
}.

(** The service object: the API keys read at construction and the session
    table. An empty key is an unconfigured port. *)
Record AIShoppingService : Type := {
  phi3_api_key : string;
  serpapi_key : string;
  together_api_key : string;
  openrouter_api_key : string;
  user_sessions : gmap string session
}.

Definition set_user_sessions (m : gmap string session)
  (self : AIShoppingService) : AIShoppingService :=
  {| phi3_api_key := phi3_api_key self; serpapi_key := serpapi_key self;
     together_api_key := together_api_key self;
     openrouter_api_key := openrouter_api_key self; user_sessions := m |}.

(** [AIShoppingService()] with the four keys of the environment. *)
Definition new_service (phi3 serp together openrouter : string)
  : AIShoppingService :=
  {| phi3_api_key := phi3; serpapi_key := serp; together_api_key := together;
     openrouter_api_key := openrouter; user_sessions := ∅ |}.

(** Truth value of a string: non-empty. *)
Definition truthy (s : string) : bool :=
  match s with
  | EmptyString => false
  | String _ _ => true
  end.

(** ** The fallback catalog: [_get_fallback_products] *)

Definition candidate (t p d img : string) (r : float) (n : Z) (src u : string)
  : product :=
  {| id := None; title := Some t; description := Some d; price := Some p;
     currency := None; image_url := Some img; rating := Some r;
     reviews_count := Some n; availability := None; source := Some src;
     url := Some u; relevance_score := None; explanation := None;
     raw_data := None |}.

Definition _get_fallback_products (query : string) : list product :=
  let query_lower := Str.lower query in
  if Str.any_in ["smartphone"; "phone"; "mobile"] query_lower then
    [ candidate "Samsung Galaxy A54 5G (Awesome Blue, 128GB)" "₹38,999"
        "6.4-inch Super AMOLED display, 50MP triple camera, 5000mAh battery"
        "https://images.samsung.com/is/image/samsung/p6pim/in/2202/gallery/in-galaxy-a54-5g-a546-sm-a546elvcins-534851043"
        4.3 15420 "Amazon" "https://amazon.in";
      candidate "Realme 11 Pro+ 5G (Oasis Green, 256GB)" "₹31,999"
        "6.7-inch curved AMOLED, 200MP camera, 100W SuperVOOC charging"
        "https://image01.realme.net/general/20230510/1683709141064.jpg"
        4.2 8934 "Flipkart" "https://flipkart.com" ]
  else if Str.any_in ["laptop"; "computer"] query_lower then
    [ candidate "HP Pavilion 15 Intel Core i5 12th Gen Laptop" "₹56,999"
        "15.6-inch FHD, 8GB RAM, 512GB SSD, Windows 11"
        "https://ssl-product-images.www8-hp.com/digmedialib/prodimg/lowres/c08140467.png"
        4.1 2341 "HP Store" "https://hp.com" ]
  else
    [ candidate ("Sample Product for " +:+ query) "₹15,999"
        "High-quality product matching your search criteria"
        "https://via.placeholder.com/300x200?text=Product"
        4.0 500 "Sample Store" "#" ].

(** ** The keyword vocabulary: [_extract_product_keyword] *)

Definition product_keywords : list string :=
  [ "smartphone"; "phone"; "mobile"; "iphone"; "android";
    "laptop"; "computer"; "macbook"; "chromebook";
    "speakers"; "speaker"; "bluetooth speaker";
    "earphones"; "headphones"; "earbuds"; "airpods";
    "tablet"; "ipad";
    "watch"; "smartwatch"; "fitness tracker";
    "camera"; "dslr"; "mirrorless";
    "tv"; "television"; "smart tv";
    "mouse"; "keyboard"; "webcam";
    "charger"; "power bank"; "cable";
    "case"; "cover"; "screen protector" ].

Definition _extract_product_keyword (message : string) : option string :=
  let message_lower := Str.lower message in
  List.find (fun keyword => Str.contains keyword message_lower) product_keywords.

(** ** The filter catalog: [_get_available_filters] *)

Definition mk_filter (n p : string) (o : list string) : shopping_filter :=
  {| name := n; param := p; options := o |}.

Definition _get_available_filters (keyword : string) : list shopping_filter :=
  if Str.mem keyword ["smartphone"; "phone"; "mobile"; "iphone"; "android"] then
    [ mk_filter "Brand" "brand"
        ["Samsung"; "Apple"; "OnePlus"; "Xiaomi"; "Realme"; "Oppo"; "Vivo";
         "Google"; "Nothing"];
      mk_filter "Price Range" "price"
        ["Under ₹10,000"; "₹10,000 - ₹20,000"; "₹20,000 - ₹40,000";
         "₹40,000 - ₹60,000"; "Above ₹60,000"];
      mk_filter "Storage" "storage" ["64GB"; "128GB"; "256GB"; "512GB"; "1TB"];
      mk_filter "RAM" "ram" ["4GB"; "6GB"; "8GB"; "12GB"; "16GB"] ]
  else if Str.mem keyword ["laptop"; "computer"; "macbook"; "chromebook"] then
    [ mk_filter "Brand" "brand"
        ["HP"; "Dell"; "Lenovo"; "Asus"; "Acer"; "Apple"; "MSI"; "Samsung"];
      mk_filter "Price Range" "price"
        ["Under ₹30,000"; "₹30,000 - ₹50,000"; "₹50,000 - ₹80,000";
         "₹80,000 - ₹1,20,000"; "Above ₹1,20,000"];
      mk_filter "Processor" "processor"
        ["Intel Core i3"; "Intel Core i5"; "Intel Core i7"; "Intel Core i9";
         "AMD Ryzen 5"; "AMD Ryzen 7"; "Apple M1/M2"];
      mk_filter "RAM" "ram" ["4GB"; "8GB"; "16GB"; "32GB"] ]
  else if Str.mem keyword ["speakers"; "speaker"; "bluetooth speaker"] then
    [ mk_filter "Brand" "brand"
        ["JBL"; "Sony"; "Bose"; "Marshall"; "Ultimate Ears"; "Boat";
         "Portronics"];
      mk_filter "Price Range" "price"
        ["Under ₹2,000"; "₹2,000 - ₹5,000"; "₹5,000 - ₹10,000";
         "₹10,000 - ₹20,000"; "Above ₹20,000"];
      mk_filter "Connectivity" "connectivity"
        ["Bluetooth"; "Wi-Fi"; "Wired"; "Multi-room"] ]
  else if Str.mem keyword ["earphones"; "headphones"; "earbuds"; "airpods"] then
    [ mk_filter "Brand" "brand"
        ["Apple"; "Sony"; "Bose"; "JBL"; "Sennheiser"; "Boat"; "OnePlus";
         "Samsung"];
      mk_filter "Price Range" "price"
        ["Under ₹1,500"; "₹1,500 - ₹5,000"; "₹5,000 - ₹10,000";
         "₹10,000 - ₹20,000"; "Above ₹20,000"];
      mk_filter "Type" "type"
        ["True Wireless"; "Wireless"; "Wired"; "Over-ear"; "On-ear"; "In-ear"];
      mk_filter "Features" "features"
        ["Active Noise Cancellation"; "Wireless Charging"; "Water Resistant";
         "Gaming"; "Sports"] ]
  else
    [ mk_filter "Price Range" "price"
        ["Under ₹1,000"; "₹1,000 - ₹5,000"; "₹5,000 - ₹10,000";
         "₹10,000 - ₹25,000"; "Above ₹25,000"];
      mk_filter "Brand" "brand"
        ["Popular Brands"; "Premium Brands"; "Budget Brands"] ].

(** The options that stand for no brand in particular. *)
Definition any_brand : list string :=
  ["Popular Brands"; "Premium Brands"; "Budget Brands"].

(** ** The relevance scorer: [_analyze_products_with_ai] *)

(** [float(i)] for an index of [enumerate]: exact below 2^53, which no list
    length reaches. *)
Definition float_of_nat (i : nat) : float :=
  PrimFloat.of_uint63 (Uint63.of_Z (Z.of_nat i)).

(** [max(a, b)] of Python: [b] when [b > a], else [a]. *)
Definition py_max (a b : float) : float :=
  if PrimFloat.ltb a b then b else a.

(** [max(0.1, 1.0 - (i * 0.1))] *)
Definition linear_decay (i : nat) : float :=
  py_max 0.1 (PrimFloat.sub 1.0 (PrimFloat.mul (float_of_nat i) 0.1)).

(** [for i, product in enumerate(products): product.update({...})] with the
    linearly decaying score, counting from [i]. *)
Fixpoint decay_scoring (e : string) (i : nat) (products : list product)
  : list product :=
  match products with
  | [] => []
  | p :: rest =>
      update {| a_relevance_score := Some (linear_decay i);
                a_explanation := Some e |} p
      :: decay_scoring e (S i) rest
  end.

Definition neutral (e : string) : analysis :=
  {| a_relevance_score := Some 0.5%float; a_explanation := Some e |}.

(** The body of the loop over the products when a scoring port is
    configured: one request per product, and a failure stays with its
    product. *)
Definition analyze_one (pt : ports) (i : nat) (original_query : string)
  (p : product) : product :=
  match ai_post pt i original_query p with
  | Http200 (Some a) => update a p
  | Http200 None => update (neutral "Unable to analyze product relevance") p
  | HttpStatus _ => update (neutral "Analysis unavailable") p
  | HttpFailure _ => update (neutral "Analysis unavailable") p
  end.

Fixpoint analyze_each (pt : ports) (original_query : string) (i : nat)
  (products : list product) : list product :=
  match products with
  | [] => []
  | p :: rest =>
      analyze_one pt i original_query p
      :: analyze_each pt original_query (S i) rest
  end.

Definition _analyze_products_with_ai (self : AIShoppingService) (pt : ports)
  (products : list product) (original_query : string) : list product :=
  let api_key :=
    if truthy (together_api_key self) then together_api_key self
    else openrouter_api_key self in
  if negb (truthy api_key) then
    decay_scoring ("Product matches your search for: " +:+ original_query)
      0 products
  else if ai_session pt then
    analyze_each pt original_query 0 products
  else
    decay_scoring "Product matches your search criteria" 0 products.

(** ** The ranker: [_rank_products] *)

(** [x.get("relevance_score", 0)], the key of the sort. *)
Definition sort_key (x : product) : float :=
  default 0%float (relevance_score x).

(** [sorted(products, key=..., reverse=True)]. The builtin is a stable sort by
    [<] on the keys; with [reverse=True] it is stable for the descending
    order too. On keys that [<] orders totally (no NaN) every stable sort
    returns the same list, here by insertion from the right: an element goes
    past the elements of strictly greater key only. *)
Fixpoint insert_desc (x : product) (l : list product) : list product :=
  match l with
  | [] => [x]
  | y :: r =>
      if PrimFloat.ltb (sort_key x) (sort_key y)
      then y :: insert_desc x r
      else x :: l
  end.

Definition sorted_desc (l : list product) : list product :=
  fold_right insert_desc [] l.

(** [str(uuid.uuid4())]: the next identifier of the supply. *)
Definition uuid4 (next : uuid) : uuid * uuid := (next, S next).

Definition format_product (i : uuid) (p : product) : product :=
  {| id := Some i;
     title := Some (default "Unknown Product" (title p));
     description := Some (default EmptyString (description p));
     price := Some (default "Price not available" (price p));
     currency := Some "₹";
     image_url := Some (default "/static/placeholder-product.svg" (image_url p));
     rating := rating p;
     reviews_count := reviews_count p;
     availability := Some "In Stock";
     source := Some (default "Unknown" (source p));
     url := Some (default "#" (url p));
     relevance_score := Some (default 0.5%float (relevance_score p));
     explanation :=
       Some (default "Recommended based on your search criteria" (explanation p));
     raw_data := None |}.

Fixpoint format_products (next : uuid) (l : list product)
  : list product * uuid :=
  match l with
  | [] => ([], next)
  | p :: rest =>
      let '(i, next1) := uuid4 next in
      let '(formatted, next2) := format_products next1 rest in
      (format_product i p :: formatted, next2)
  end.

Definition _rank_products (products : list product) (next : uuid)
  : list product * uuid :=
  format_products next (sorted_desc products).

(** ** The query interpreter: [_parse_query_with_phi3] *)

Definition _parse_query_with_phi3 (self : AIShoppingService) (pt : ports)
  (query : string) : parsed_query :=
  if negb (truthy (phi3_api_key self)) then {| product_type := Some query |}
  else
    match phi3_post pt query with
    | Http200 (Some parsed) => parsed
    | Http200 None => {| product_type := Some query |}
    | HttpStatus _ => {| product_type := Some query |}
    | HttpFailure _ => {| product_type := Some query |}
    end.

(** ** The candidate retriever *)

(** The product dictionary built from one entry of [shopping_results]. *)
Definition product_of_result (r : raw_result) : product :=
  {| id := None;
     title := Some (default EmptyString (r_title r));
     description := Some (default EmptyString (r_snippet r));
     price := Some (default EmptyString (r_price r));
     currency := None;
     image_url := Some (default EmptyString (r_thumbnail r));
     rating := r_rating r;
     reviews_count := r_reviews r;
     availability := None;
     source := Some (default EmptyString (r_source r));
     url := Some (default EmptyString (r_link r));
     relevance_score := None;
     explanation := None;
     raw_data := Some r |}.

Definition _search_products_with_serpapi (self : AIShoppingService)
  (pt : ports) (parsed : parsed_query) : result (list product) :=
  if negb (truthy (serpapi_key self)) then
    Raise (Exception "SerpAPI key not configured")
  else
    match serpapi_get pt {| q := default EmptyString (product_type parsed);
                            min_price := None; max_price := None |} with
    | Http200 shopping_results => Ok (map product_of_result shopping_results)
    | HttpStatus code =>
        if (code =? 429)%Z then Ok []
        else Raise (Exception ("SerpAPI error: " +:+ Str.of_Z code))
    | HttpFailure e => Raise e
    end.

Definition _search_with_keyword (self : AIShoppingService) (pt : ports)
  (keyword : string) : result (list product) :=
  _search_products_with_serpapi self pt {| product_type := Some keyword |}.

(** The first [continue] of the loop of [_get_filtered_fallback_products]:
    a brand was chosen, it is not one of the any-brand options and the title
    does not contain it. Every entry of the catalog has a title. *)
Definition brand_rejects (filters : list (string * string)) (p : product)
  : bool :=
  match dict_get "brand" filters with
  | Some brand =>
      negb (Str.mem brand any_brand)
      && negb (Str.contains (Str.lower brand)
                 (Str.lower (default EmptyString (title p))))
  | None => false
  end.

(** The second and third [continue]; an exception inside the [try] ([int]
    on text that is no number) is passed over and the product is kept. *)
Definition price_rejects (filters : list (string * string)) (p : product)
  : bool :=
  match dict_get "price" filters with
  | None => false
  | Some price_filter =>
      let product_price :=
        Str.replace "," EmptyString
          (Str.replace "₹" EmptyString (default "₹0" (price p))) in
      match Str.int product_price with
      | None => false
      | Some price_num =>
          if Str.contains "Under ₹" price_filter then
            match nth_error (Str.split "₹" price_filter) 1 with
            | None => false
            | Some part =>
                match Str.int (Str.replace "," EmptyString part) with
                | None => false
                | Some max_price => (max_price <=? price_num)%Z
                end
            end
          else if Str.contains "-" price_filter then
            match Str.split " - "
                    (Str.replace "," EmptyString
                       (Str.replace "₹" EmptyString price_filter)) with
            | [lo; hi] =>
                match Str.int (Str.strip lo) with
                | None => false
                | Some min_price =>
                    match Str.int (Str.strip hi) with
                    | None => false
                    | Some max_price =>
                        negb ((min_price <=? price_num)%Z
                              && (price_num <=? max_price)%Z)
                    end
                end
            | _ => false
            end
          else false
      end
  end.

(** [f"Matches your filters - {', '.join(filter_info)}"] *)
Definition filter_explanation (filters : list (string * string)) : string :=
  "Matches your filters - "
  +:+ Str.join ", "
        (map (fun '(key, value) => Str.title key +:+ ": " +:+ value) filters).

Fixpoint filter_loop (filters : list (string * string))
  (base_products : list product) : list product :=
  match base_products with
  | [] => []
  | p :: rest =>
      if brand_rejects filters p then filter_loop filters rest
      else if price_rejects filters p then filter_loop filters rest
      else set_explanation (filter_explanation filters) p
           :: filter_loop filters rest
  end.

Definition _get_filtered_fallback_products (keyword : string)
  (filters : list (string * string)) : list product :=
  let base_products := _get_fallback_products keyword in
  let filtered_products := filter_loop filters base_products in
  match filtered_products with
  | [] => base_products
  | _ :: _ => filtered_products
  end.

(** [if key in filters: search_query += f" {filters[key]}{tail}"] *)
Definition add_filter (key tail : string) (filters : list (string * string))
  (search_query : string) : string :=
  match dict_get key filters with
  | Some v => search_query +:+ " " +:+ v +:+ tail
  | None => search_query
  end.

(** The query text of [_search_with_filters], built before its [try]:
    [price_filter.split("₹")[1]] raises [IndexError] when the answer holds
    Under and no rupee sign. *)
Definition build_search_query (keyword : string)
  (filters : list (string * string)) : result string :=
  let search_query :=
    match dict_get "brand" filters with
    | Some brand =>
        if negb (Str.mem brand any_brand) then keyword +:+ " " +:+ brand
        else keyword
    | None => keyword
    end in
  let with_price :=
    match dict_get "price" filters with
    | Some price_filter =>
        if Str.contains "Under" price_filter then
          match nth_error (Str.split "₹" price_filter) 1 with
          | Some part =>
              Ok (search_query +:+ " under " +:+ Str.replace "," EmptyString part)
          | None => Raise IndexError
          end
        else if Str.contains "-" price_filter then
          Ok (search_query +:+ " " +:+ Str.replace "₹" "Rs " price_filter)
        else Ok search_query
    | None => Ok search_query
    end in
  match with_price with
  | Raise e => Raise e
  | Ok search_query =>
      Ok (add_filter "connectivity" EmptyString filters
            (add_filter "features" EmptyString filters
               (add_filter "type" EmptyString filters
                  (add_filter "processor" EmptyString filters
                     (add_filter "ram" " RAM" filters
                        (add_filter "storage" EmptyString filters
                           search_query))))))
  end.

(** [min_price] and [max_price] of the request, read off the price answer
    inside the [try] of [_search_with_filters]; [Raise] cannot come out of
    the [split] here and is kept for the shape of the source. *)
Definition price_bounds (filters : list (string * string))
  : result (option string * option string) :=
  match dict_get "price" filters with
  | Some price_filter =>
      if Str.contains "Under ₹" price_filter then
        match nth_error (Str.split "₹" price_filter) 1 with
        | Some part => Ok (None, Some (Str.replace "," EmptyString part))
        | None => Raise IndexError
        end
      else if Str.contains "-" price_filter && Str.contains "₹" price_filter then
        match Str.split " - "
                (Str.replace "," EmptyString
                   (Str.replace "₹" EmptyString price_filter)) with
        | [lo; hi] => Ok (Some (Str.strip lo), Some (Str.strip hi))
        | _ => Ok (None, None)
        end
      else Ok (None, None)
  | None => Ok (None, None)
  end.

Definition _search_with_filters (self : AIShoppingService) (pt : ports)
  (keyword : string) (filters : list (string * string))
  : result (list product) :=
  match build_search_query keyword filters with
  | Raise e => Raise e
  | Ok search_query =>
      if negb (truthy (serpapi_key self)) then
        Ok (_get_filtered_fallback_products keyword filters)
      else
        match price_bounds filters with
        | Raise _ => Ok (_get_filtered_fallback_products keyword filters)
        | Ok (lo, hi) =>
            match serpapi_get pt {| q := search_query; min_price := lo;
                                    max_price := hi |} with
            | Http200 shopping_results =>
                Ok (map product_of_result shopping_results)
            | HttpStatus _ =>
                Ok (_get_filtered_fallback_products keyword filters)
            | HttpFailure _ =>
                Ok (_get_filtered_fallback_products keyword filters)
            end
        end
  end.

(** ** Canned replies: [_generate_conversational_response] *)

Definition greeting_reply : string :=
  "Hello! I'm your AI Shopping Agent. I can help you find products based on your needs. Just tell me what you're looking for!".

Definition thanks_reply : string :=
  "You're welcome! Is there anything else I can help you find today?".

Definition help_reply : string :=
  "I can help you find products by understanding your natural language queries. For example, you can say 'I need a smartphone under ₹20000 with good camera' and I'll find the best options for you!".

Definition default_reply : string :=
  "I'm here to help you find products! Could you tell me what you're looking for? I can search for electronics, clothing, accessories, and much more.".

Definition _generate_conversational_response (message : string) : string :=
  let greetings :=
    ["hello"; "hi"; "hey"; "good morning"; "good afternoon"; "good evening"] in
  let thanks := ["thank you"; "thanks"; "appreciate"] in
  let help_requests := ["help"; "how"; "what can you do"] in
  let message_lower := Str.lower message in
  if Str.any_in greetings message_lower then greeting_reply
  else if Str.any_in thanks message_lower then thanks_reply
  else if Str.any_in help_requests message_lower then help_reply
  else default_reply.

(** ** One-shot search: [process_search_query] *)

(** The response of both branches that return products; the list is cut to
    its first ten entries here, after the ranker. *)
Definition search_reply (ranked_products : list product) (e : string)
  (next : uuid) : search_response * uuid :=
  let '(search_id, next1) := uuid4 next in
  ({| sr_products := firstn 10 ranked_products; sr_explanation := e;
      sr_search_id := search_id |}, next1).

(** The inner [try] of the handler cannot raise on typed products (the
    fallback catalog, the scorer and the ranker are total), so its bare
    [except] is not reached. *)
Definition process_search_query (self : AIShoppingService) (pt : ports)
  (query : string) (next : uuid) : search_response * uuid :=
  let parsed := _parse_query_with_phi3 self pt query in
  match _search_products_with_serpapi self pt parsed with
  | Ok search_results =>
      let search_results :=
        match search_results with
        | [] => _get_fallback_products query
        | _ :: _ => search_results
        end in
      let analyzed_products :=
        _analyze_products_with_ai self pt search_results query in
      let '(ranked_products, next1) := _rank_products analyzed_products next in
      search_reply ranked_products
        ("Found " +:+ Str.of_nat (length ranked_products)
         +:+ " products matching your criteria: " +:+ query) next1
  | Raise _ =>
      let fallback_products := _get_fallback_products query in
      let analyzed_products :=
        _analyze_products_with_ai self pt fallback_products query in
      let '(ranked_products, next1) := _rank_products analyzed_products next in
      search_reply ranked_products
        ("Showing sample results for: " +:+ query
         +:+ " (API temporarily unavailable)") next1
  end.

(** ** The conversation machine: [process_chat_message] *)

Definition no_products (m : string) : chat_response :=
  {| message := m; has_products := false; products := [];
     filter_options := None; filter_name := None |}.

Definition with_products (m : string) (results : list product)
  : chat_response :=
  {| message := m; has_products := true; products := results;
     filter_options := None; filter_name := None |}.

(** The bulleted list of options that ends a filter prompt. *)
Definition choose_from (f : shopping_filter) : string :=
  "**" +:+ name f +:+ "**: Please choose from these options:" +:+ Str.nl
  +:+ Str.join Str.nl (map (fun opt => "• " +:+ opt) (options f)).

Definition filter_prompt (intro : string) (f : shopping_filter)
  : chat_response :=
  {| message := intro +:+ choose_from f; has_products := false;
     products := []; filter_options := Some (options f);
     filter_name := Some (name f) |}.

Definition clarifying_prompt : string :=
  "I'd like to help you find products! Please tell me what you're looking for (e.g., smartphone, speakers, earphones, laptop, etc.)".

Definition start_fresh_message : string :=
  "I'm sorry, I encountered an error. Let's start fresh - what product are you looking for?".

(** The response of the outermost handler, [except Exception]. *)
Definition error_response : chat_response := no_products start_fresh_message.

(** The session after a keyword was found in the initial stage. *)
Definition begin_filters (keyword : string) (filters : list shopping_filter)
  (s : session) : session :=
  {| stage := "getting_filters"; product_keyword := Some keyword;
     current_filters := current_filters s; available_filters := filters;
     current_filter_index := current_filter_index s |}.

(** The session after the answer to filter [f] was stored. *)
Definition store_choice (f : shopping_filter) (answer : string) (s : session)
  : session :=
  {| stage := stage s; product_keyword := product_keyword s;
     current_filters := dict_set (param f) (Str.strip answer) (current_filters s);
     available_filters := available_filters s;
     current_filter_index := current_filter_index s + 1 |}.

Definition set_stage (st : string) (s : session) : session :=
  {| stage := st; product_keyword := product_keyword s;
     current_filters := current_filters s;
     available_filters := available_filters s;
     current_filter_index := current_filter_index s |}.

(** [if session_id not in self.user_sessions: self.user_sessions[session_id]
    = {...}]: a session is created on the first message of its key. *)
Definition ensure_session (sessions : gmap string session)
  (session_id : string) : gmap string session :=
  match sessions !! session_id with
  | Some _ => sessions
  | None => <[session_id := fresh_session]> sessions
  end.

(** The session dictionary is mutated in place, so what was written to it
    before an exception is still in the table when the handler returns.
    [_search_with_filters] is called with [session["product_keyword"]]; the
    key holds a string whenever the stage is [getting_filters], and [None]
    there is modelled as the [TypeError] of appending text to it. *)
Definition process_chat_message (self : AIShoppingService) (pt : ports)
  (msg session_id : string) : chat_response * AIShoppingService :=
  let sessions := ensure_session (user_sessions self) session_id in
  let s := default fresh_session (sessions !! session_id) in
  let conversational :=
    (no_products (_generate_conversational_response msg),
     set_user_sessions sessions self) in
  if String.eqb (stage s) "initial" then
    match _extract_product_keyword msg with
    | Some keyword =>
        let filters := _get_available_filters keyword in
        let s1 := begin_filters keyword filters s in
        let self1 := set_user_sessions (<[session_id := s1]> sessions) self in
        match filters with
        | current_filter :: _ =>
            (filter_prompt
               ("Great! I found filters for " +:+ keyword
                +:+ ". Let's refine your search step by step."
                +:+ Str.nl +:+ Str.nl)
               current_filter, self1)
        | [] =>
            match _search_with_keyword self pt keyword with
            | Ok results =>
                (with_products
                   ("Here are the search results for " +:+ keyword +:+ ":")
                   results, self1)
            | Raise _ => (error_response, self1)
            end
        end
    | None => (no_products clarifying_prompt, set_user_sessions sessions self)
    end
  else if String.eqb (stage s) "getting_filters" then
    let filter_index := current_filter_index s in
    match nth_error (available_filters s) filter_index with
    | Some current_filter =>
        let s1 := store_choice current_filter msg s in
        match nth_error (available_filters s1) (current_filter_index s1) with
        | Some next_filter =>
            (filter_prompt EmptyString next_filter,
             set_user_sessions (<[session_id := s1]> sessions) self)
        | None =>
            let s2 := set_stage "searching" s1 in
            let searched :=
              match product_keyword s2 with
              | Some keyword =>
                  match _search_with_filters self pt keyword
                          (current_filters s2) with
                  | Ok results => Ok (keyword, results)
                  | Raise e => Raise e
                  end
              | None => Raise TypeError
              end in
            match searched with
            | Ok (keyword, results) =>
                (with_products
                   ("Here are your filtered results for " +:+ keyword +:+ ":")
                   results,
                 set_user_sessions (<[session_id := fresh_session]> sessions)
                   self)
            | Raise _ =>
                (error_response,
                 set_user_sessions (<[session_id := s2]> sessions) self)
            end
        end
    | None => conversational
    end
  else conversational.

(** A conversation: the messages of a run of the service, each with the
    session key it is sent under and the behaviour of the ports while it is
    processed. *)
Definition turn : Type := (ports * string * string)%type.

Definition chat (self : AIShoppingService) (t : turn) : AIShoppingService :=
  let '(pt, msg, session_id) := t in
  snd (process_chat_message self pt msg session_id).

Definition run (self : AIShoppingService) (turns : list turn)
  : AIShoppingService :=
  fold_left chat turns self.

(** ** Notions the statements below are phrased with *)

(** The session a message is processed against: the stored one, or the
    fresh one the first message of a key creates. *)
Definition session_of (self : AIShoppingService) (session_id : string)
  : session :=
  default fresh_session (user_sessions self !! session_id).

(** A scored candidate: it carries a relevance score, and the score is a
    number. *)
Definition scored (p : product) : bool :=
  match relevance_score p with
  | Some s => negb (PrimFloat.is_nan s)
  | None => false
  end.

(** [a] does not score below [b]. *)
Definition score_geq (a b : product) : Prop :=
  PrimFloat.leb (sort_key b) (sort_key a) = true.

(** The candidates whose score equals [k]. *)
Definition same_score (k : float) (p : product) : bool :=
  PrimFloat.eqb (sort_key p) k.

(** A formatted product is the candidate [p] under identifier [i]. *)
Definition formats (out p : product) : Prop :=
  exists i, out = format_product i p.

(** The filtered fallback in the words of its description. A price answer
    asks for a bound (Under ₹N) or a band (₹A - ₹B); other answers ask for
    nothing. *)
Inductive price_request : Type :=
| Under (max_price : Z)
| Between (min_price max_price : Z).

(** A display price as a number: currency sign and commas removed. *)
Definition numeric_price (s : string) : option Z :=
  Str.int (Str.replace "," EmptyString (Str.replace "₹" EmptyString s)).

Definition requested (price_filter : string) : option price_request :=
  if Str.contains "Under ₹" price_filter then
    part ← nth_error (Str.split "₹" price_filter) 1;
    max_price ← Str.int (Str.replace "," EmptyString part);
    Some (Under max_price)
  else if Str.contains "-" price_filter then
    match Str.split " - "
            (Str.replace "," EmptyString
               (Str.replace "₹" EmptyString price_filter)) with
    | [lo; hi] =>
        min_price ← Str.int (Str.strip lo);
        max_price ← Str.int (Str.strip hi);
        Some (Between min_price max_price)
    | _ => None
    end
  else None.

Definition within (r : price_request) (n : Z) : bool :=
  match r with
  | Under max_price => (n <? max_price)%Z
  | Between min_price max_price => (min_price <=? n)%Z && (n <=? max_price)%Z
  end.

(** The brand filter lets a candidate through: no brand was chosen, or an
    any-brand option was, or the title contains the brand, case ignored. *)
Definition brand_passes (filters : list (string * string)) (p : product)
  : bool :=
  match dict_get "brand" filters with
  | None => true
  | Some brand =>
      Str.mem brand any_brand
      || Str.contains (Str.lower brand)
           (Str.lower (default EmptyString (title p)))
  end.

(** The price filter lets a candidate through: no price was chosen, or the
    candidate's price does not parse, or the answer asks for nothing that
    parses, or the price is within what is asked. *)
Definition price_passes (filters : list (string * string)) (p : product)
  : bool :=
  match dict_get "price" filters with
  | None => true
  | Some price_filter =>
      match numeric_price (default "₹0" (price p)) with
      | None => true
      | Some n =>
          match requested price_filter with
          | None => true
          | Some r => within r n
          end
      end
  end.

(** The stage is one of the three the machine knows. *)
Definition stage_defined (s : session) : Prop :=
  stage s = "initial" \/ stage s = "getting_filters" \/ stage s = "searching".

(** The invariant of a stored session: the cursor is within the filter
    sequence, the answered keys are the parameter keys of the filters before
    the cursor, in order, no parameter key occurs twice in the sequence,
    nothing is answered in the initial stage, and the stage is defined. *)
Definition session_ok (s : session) : Prop :=
  current_filter_index s <= length (available_filters s)
  /\ map fst (current_filters s)
     = map param (firstn (current_filter_index s) (available_filters s))
  /\ NoDup (map param (available_filters s))
  /\ (stage s = "initial"
      -> current_filters s = [] /\ current_filter_index s = 0)
  /\ stage_defined s.

(** Every stored session satisfies the invariant. *)
Definition table_ok (self : AIShoppingService) : Prop :=
  forall sid s, user_sessions self !! sid = Some s -> session_ok s.

(** The four canned replies. *)
Definition canned (m : string) : Prop :=
  m = greeting_reply \/ m = thanks_reply \/ m = help_reply \/ m = default_reply.

(** No filter is waiting for an answer: the stage is not [getting_filters],
    or the cursor is past the sequence. *)
Definition no_pending_filter (s : session) : Prop :=
  stage s <> "getting_filters"
  \/ nth_error (available_filters s) (current_filter_index s) = None.

(** ** Concrete services, ports and conversations *)

Definition down {A : Type} : http A := HttpFailure (Exception "connection refused").

(** Every port fails. *)
Definition ports_down : ports :=
  {| phi3_post := fun _ => down; serpapi_get := fun _ => down;
     ai_session := false; ai_post := fun _ _ _ => down |}.

(** The search port answers 200 with no shopping result. *)
Definition ports_no_result : ports :=
  {| phi3_post := fun _ => down; serpapi_get := fun _ => Http200 [];
     ai_session := false; ai_post := fun _ _ _ => down |}.

(** No API key is set. *)
Definition service_no_keys : AIShoppingService :=
  new_service EmptyString EmptyString EmptyString EmptyString.

(** Only the key of the search port is set. *)
Definition service_search_key : AIShoppingService :=
  new_service EmptyString "serpapi-key" EmptyString EmptyString.

Definition user : string := "user_session".

Definition says (pt : ports) (msg : string) : turn := (pt, msg, user).

(** A laptop dialogue up to its last filter, with no key set. *)
Definition laptop_dialogue : list turn :=
  [ says ports_down "I need a laptop"; says ports_down "HP";
    says ports_down "₹50,000 - ₹80,000"; says ports_down "Intel Core i5" ].

(** The same with a price answer that holds Under and no rupee sign. *)
Definition laptop_dialogue_no_rupee : list turn :=
  [ says ports_down "I need a laptop"; says ports_down "HP";
    says ports_down "Under 60000"; says ports_down "Intel Core i5" ].

(** The same against a search port that finds nothing. *)
Definition laptop_dialogue_no_result : list turn :=
  [ says ports_no_result "I need a laptop"; says ports_no_result "HP";
    says ports_no_result "₹50,000 - ₹80,000";
    says ports_no_result "Intel Core i5" ].

Definition scored_candidate (t : string) (s : float) : product :=
  {| id := None; title := Some t; description := None; price := None;
     currency := None; image_url := None; rating := None;
     reviews_count := None; availability := None; source := None;
     url := None; relevance_score := Some s; explanation := None;
     raw_data := None |}.

(** Scores 0.2, 0.9, 0.9, 0.1 in this order. *)
Definition four_scored : list product :=
  [ scored_candidate "a" 0.2; scored_candidate "b" 0.9;
    scored_candidate "c" 0.9; scored_candidate "d" 0.1 ].

(** The three entries of the fallback catalog, in arrival order. *)
Definition three_candidates : list product :=
  _get_fallback_products "phone" ++ _get_fallback_products "laptop".

(** Eleven candidates of equal score. *)
Definition eleven_scored : list product :=
  repeat (scored_candidate "item" 0.5) 11.

(** The answers of the laptop dialogue once its last filter is answered
    with 8GB. *)
Definition laptop_answers (price_answer : string) : list (string * string) :=
  [ ("brand", "HP"); ("price", price_answer);
    ("processor", "Intel Core i5"); ("ram", "8GB") ].

(** The session of the laptop dialogue after the brand was answered. *)
Definition laptop_session_after_brand : session :=
  {| stage := "getting_filters"; product_keyword := Some "laptop";
     current_filters := [("brand", "HP")];
     available_filters := _get_available_filters "laptop";
     current_filter_index := 1 |}.

(** The session a failed search leaves behind in the laptop dialogue. *)
Definition laptop_session_stuck : session :=
  {| stage := "searching"; product_keyword := Some "laptop";
     current_filters := laptop_answers "Under 60000";
     available_filters := _get_available_filters "laptop";
     current_filter_index := 4 |}.

(** ** Intent detection: [_analyze_message_intent] *)

Record message_intent : Type := {
  requires_search : bool;
  intent : string
}.

Definition search_keywords : list string :=
  [ "buy"; "purchase"; "find"; "looking for"; "need"; "want"; "search";
    "recommend"; "suggest"; "best"; "cheap"; "expensive"; "under"; "above";
    "smartphone"; "laptop"; "watch"; "headphones"; "shoes"; "clothes" ].

Definition _analyze_message_intent (msg : string) : message_intent :=
  let message_lower := Str.lower msg in
  let requires := Str.any_in search_keywords message_lower in
  {| requires_search := requires;
     intent := if requires then "product_search" else "conversation" |}.

(** ** The request layer: main.py and models.py *)

(** The fields of the model [Product] that have no default. *)
Definition required_present (p : product) : bool :=
  bool_decide (is_Some (id p)) && bool_decide (is_Some (title p))
  && bool_decide (is_Some (description p)) && bool_decide (is_Some (price p))
  && bool_decide (is_Some (image_url p)) && bool_decide (is_Some (source p))
  && bool_decide (is_Some (url p))
  && bool_decide (is_Some (relevance_score p))
  && bool_decide (is_Some (explanation p)).

(** Validation of a product dictionary against the model [Product]: a
    missing required field is a validation error, the two defaults are
    filled in, a key the model does not declare is dropped. *)
Definition Product (p : product) : result product :=
  if required_present p then
    Ok {| id := id p; title := title p; description := description p;
          price := price p;
          currency := Some (default "â‚¹" (currency p));
          image_url := image_url p; rating := rating p;
          reviews_count := reviews_count p;
          availability := Some (default "In Stock" (availability p));
          source := source p; url := url p;
          relevance_score := relevance_score p;
          explanation := explanation p; raw_data := None |}
  else Raise (Exception "validation error for Product").

Fixpoint validate_products (l : list product) : result (list product) :=
  match l with
  | [] => Ok []
  | p :: rest =>
      match Product p with
      | Raise e => Raise e
      | Ok p' =>
          match validate_products rest with
          | Raise e => Raise e
          | Ok rest' => Ok (p' :: rest')
          end
      end
  end.

(** The model [SearchResponse], timestamp left out. *)
Record SearchResponse : Type := {
  rs_query : string;
  rs_products : list product;
  rs_explanation : string;
  rs_search_id : uuid
}.

(** What an endpoint answers: its value, or the [HTTPException] its handler
    raises, with the status code and the exception it reports. *)
Inductive endpoint (A : Type) : Type :=
| Returns (a : A)
| HTTPException (status_code : Z) (cause : exn).

Arguments Returns {A} a.
Arguments HTTPException {A} status_code cause.

(** [POST /api/search] *)
Definition search_products (self : AIShoppingService) (pt : ports)
  (query : string) (next : uuid) : endpoint SearchResponse * uuid :=
  let '(result, next1) := process_search_query self pt query next in
  match validate_products (sr_products result) with
  | Ok validated =>
      (Returns {| rs_query := query; rs_products := validated;
                  rs_explanation := sr_explanation result;
                  rs_search_id := sr_search_id result |}, next1)
  | Raise e => (HTTPException 500 e, next1)
  end.

(** The dictionary [POST /api/chat] answers with, timestamp left out. *)
Record chat_reply : Type := {
  response : string;
  cr_has_products : bool;
  cr_products : list product;
  cr_filter_options : list string;
  cr_filter_name : string
}.

(** [POST /api/chat]: every request is processed under the one session key
    [user_session]; [process_chat_message] raises nothing, so the handler's
    [except] is not reached. *)
Definition chat_with_agent (self : AIShoppingService) (pt : ports)
  (content : string) : chat_reply * AIShoppingService :=
  let session_id := "user_session" in
  let '(r, self1) := process_chat_message self pt content session_id in
  ({| response := message r; cr_has_products := has_products r;
      cr_products := products r;
      cr_filter_options := default [] (filter_options r);
      cr_filter_name := default EmptyString (filter_name r) |}, self1).

(** The service after a sequence of chat requests. *)
Definition serve (self : AIShoppingService) (requests : list (ports * string))
  : AIShoppingService :=
  fold_left (fun s r => snd (chat_with_agent s (fst r) (snd r))) requests self.

(** ** Further notions for statements *)

(** The responses of a conversation, in order, and the service after it. *)
Fixpoint converse (self : AIShoppingService) (turns : list turn)
  : list chat_response * AIShoppingService :=
  match turns with
  | [] => ([], self)
  | (pt, msg, session_id) :: rest =>
      let '(r, self1) := process_chat_message self pt msg session_id in
      let '(rs, self2) := converse self1 rest in
      (r :: rs, self2)
  end.

(** Answers sent under one session key. *)
Definition answers_to (session_id : string) (answers : list (ports * string))
  : list turn :=
  map (fun a => (fst a, snd a, session_id)) answers.

(** A session that is collecting filters, cursor at [i]. *)
Definition collecting (keyword : string) (filters : list shopping_filter)
  (i : nat) (answered : list (string * string)) : session :=
  {| stage := "getting_filters"; product_keyword := Some keyword;
     current_filters := answered; available_filters := filters;
     current_filter_index := i |}.

(** Two product dictionaries agree on everything but the relevance score
    and the explanation. *)
Definition same_listing (a b : product) : Prop :=
  id a = id b /\ title a = title b /\ description a = description b
  /\ price a = price b /\ currency a = currency b
  /\ image_url a = image_url b /\ rating a = rating b
  /\ reviews_count a = reviews_count b /\ availability a = availability b
  /\ source a = source b /\ url a = url b /\ raw_data a = raw_data b.

(** A product dictionary without its identifier. *)
Definition forget_id (p : product) : product :=
  {| id := None; title := title p; description := description p;
     price := price p; currency := currency p; image_url := image_url p;
     rating := rating p; reviews_count := reviews_count p;
     availability := availability p; source := source p; url := url p;
     relevance_score := relevance_score p; explanation := explanation p;
     raw_data := raw_data p |}.

(** Vocabulary entries that contain an earlier entry of the vocabulary. *)
Definition shadowed_keywords : list string :=
  [ "iphone"; "bluetooth speaker"; "earphones"; "headphones"; "smartwatch";
    "smart tv" ].

(** The answer keys [_search_with_filters] reads. *)
Definition read_keys : list string :=
  [ "brand"; "price"; "storage"; "ram"; "processor"; "type"; "features";
    "connectivity" ].

(** A filter of the catalog is well formed: it offers options, its
    parameter key is one the filtered retrieval reads, and an option that
    holds Under holds a rupee sign. *)
Definition filter_well_formed (f : shopping_filter) : bool :=
  negb (bool_decide (options f = []))
  && Str.mem (param f) read_keys
  && forallb (fun o => implb (Str.contains "Under" o) (Str.contains "₹" o))
       (options f).

(** A candidate that holds every field the ranker has a default for. *)
Definition fully_listed (p : product) : Prop :=
  is_Some (title p) /\ is_Some (description p) /\ is_Some (price p)
  /\ is_Some (image_url p) /\ is_Some (source p) /\ is_Some (url p).

(** A raw result of the search port with a title only. *)
Definition raw_titled (t : string) : raw_result :=
  {| r_title := Some t; r_price := None; r_snippet := None;
     r_thumbnail := None; r_rating := None; r_reviews := None;
     r_source := None; r_link := None |}.

(** A search port that answers every request with twelve results. *)
Definition ports_twelve_results : ports :=
  {| phi3_post := fun _ => down;
     serpapi_get := fun _ => Http200 (repeat (raw_titled "result") 12);
     ai_session := false; ai_post := fun _ _ _ => down |}.

(** Neither a relevance score nor any field the ranker adds. *)
Definition unranked (p : product) : Prop :=
  id p = None /\ relevance_score p = None /\ currency p = None
  /\ availability p = None.

(** A port whose every scoring request fails or answers undecodably. *)
Definition scoring_fails (pt : ports) : Prop :=
  forall i q p a, ai_post pt i q p <> Http200 (Some a).

(** A scoring port that answers every request with status 503. *)
Definition ports_scoring_503 : ports :=
  {| phi3_post := fun _ => down; serpapi_get := fun _ => down;
     ai_session := true; ai_post := fun _ _ _ => HttpStatus 503 |}.

(** Only the key of a scoring port is set. *)
Definition service_scoring_key : AIShoppingService :=
  new_service EmptyString EmptyString "together-key" EmptyString.

(** ** Facts about the float comparisons *)

Ltac sf_cases :=
  repeat match goal with
         | b : bool |- _ => destruct b
         end;
  cbn [CompOpp];
  repeat match goal with
         | |- context [Z.compare ?a ?b] => destruct (Z.compare_spec a b); subst
         | |- context [Pos.compare ?a ?b] => destruct (Pos.compare_spec a b); subst
         end;
  cbn [CompOpp]; intros; try congruence; try lia.

Ltac sf_compare :=
  repeat match goal with
         | x : spec_float |- _ => destruct x as [?|?| |? ? ?]
         end;
  cbn [SFcompare]; change (PosDef.Pos.compare_cont Eq) with Pos.compare;
  try discriminate; try reflexivity; sf_cases.

Lemma SFleb_trans x y z :
  SFleb x y = true -> SFleb y z = true -> SFleb x z = true.
Proof. unfold SFleb. sf_compare. Qed.

Lemma SFltb_false_leb x y :
  SFeqb x x = true -> SFeqb y y = true -> SFltb x y = false ->
  SFleb y x = true.
Proof. unfold SFleb, SFltb, SFeqb. sf_compare. Qed.

Lemma SFeqb_not_ltb x y k :
  SFeqb x k = true -> SFeqb y k = true -> SFltb x y = false.
Proof. unfold SFltb, SFeqb. sf_compare. Qed.

Lemma float_leb_trans (x y z : float) :
  PrimFloat.leb x y = true -> PrimFloat.leb y z = true ->
  PrimFloat.leb x z = true.
Proof. rewrite !FloatAxioms.leb_spec. apply SFleb_trans. Qed.

Lemma float_ltb_leb (x y : float) :
  PrimFloat.ltb x y = true -> PrimFloat.leb x y = true.
Proof.
  rewrite FloatAxioms.ltb_spec, FloatAxioms.leb_spec. unfold SFltb, SFleb.
  destruct (SFcompare _ _) as [[]|]; congruence.
Qed.

Lemma float_ltb_false_leb (x y : float) :
  PrimFloat.is_nan x = false -> PrimFloat.is_nan y = false ->
  PrimFloat.ltb x y = false -> PrimFloat.leb y x = true.
Proof.
  unfold PrimFloat.is_nan. rewrite !negb_false_iff, !FloatAxioms.eqb_spec, FloatAxioms.ltb_spec, FloatAxioms.leb_spec.
  apply SFltb_false_leb.
Qed.

Lemma float_eqb_not_ltb (x y k : float) :
  PrimFloat.eqb x k = true -> PrimFloat.eqb y k = true ->
  PrimFloat.ltb x y = false.
Proof. rewrite !FloatAxioms.eqb_spec, FloatAxioms.ltb_spec. apply SFeqb_not_ltb. Qed.

(** ** The fallback scorer *)

Lemma decay_scoring_length e i products :
  length (decay_scoring e i products) = length products.
Proof.
  revert i. induction products as [|p rest IH]; intros i; simpl.
  - reflexivity.
  - now rewrite IH.
Qed.

Lemma decay_scoring_nth e products :
  forall i0 i p,
    nth_error products i = Some p ->
    nth_error (decay_scoring e i0 products) i
    = Some (update {| a_relevance_score := Some (linear_decay (i0 + i));
                      a_explanation := Some e |} p).
Proof.
  induction products as [|p0 rest IH]; intros i0 [|i] p Hp; simpl in *;
    try discriminate.
  - injection Hp as ->. now rewrite Nat.add_0_r.
  - rewrite (IH (S i0) i p Hp). now rewrite Nat.add_succ_r.
Qed.

Lemma unconfigured_scorer self pt products q :
  together_api_key self = EmptyString ->
  openrouter_api_key self = EmptyString ->
  _analyze_products_with_ai self pt products q
  = decay_scoring ("Product matches your search for: " +:+ q) 0 products.
Proof.
  intros Ht Ho. unfold _analyze_products_with_ai. now rewrite Ht, Ho.
Qed.

(** ** The sort of the ranker *)

Lemma insert_desc_perm x l : Permutation (insert_desc x l) (x :: l).
Proof.
  induction l as [|y r IH]; simpl.
  - reflexivity.
  - destruct (PrimFloat.ltb _ _).
    + rewrite IH. apply perm_swap.
    + reflexivity.
Qed.

Lemma sorted_desc_perm l : Permutation (sorted_desc l) l.
Proof.
  induction l as [|x r IH]; simpl.
  - reflexivity.
  - rewrite insert_desc_perm. now apply perm_skip.
Qed.

Lemma scored_not_nan p :
  scored p = true -> PrimFloat.is_nan (sort_key p) = false.
Proof.
  unfold scored, sort_key. destruct (relevance_score p) as [s|]; simpl.
  - now rewrite negb_true_iff.
  - discriminate.
Qed.

Lemma insert_desc_sorted x l :
  scored x = true ->
  Forall (fun p => scored p = true) l ->
  StronglySorted score_geq l ->
  StronglySorted score_geq (insert_desc x l).
Proof.
  intros Hx Hl Hs. induction Hs as [|y r Hr IH Hy]; simpl.
  - repeat constructor.
  - inversion Hl as [|? ? Hy' Hr']; subst.
    destruct (PrimFloat.ltb (sort_key x) (sort_key y)) eqn:Hlt.
    + constructor.
      * now apply IH.
      * apply (Permutation_Forall (Permutation_sym (insert_desc_perm x r))).
        constructor; [|assumption].
        unfold score_geq. now apply float_ltb_leb.
    + assert (Hxy : score_geq x y).
      { unfold score_geq.
        apply float_ltb_false_leb; auto using scored_not_nan. }
      constructor.
      * now constructor.
      * constructor; [assumption|].
        eapply List.Forall_impl; [|exact Hy].
        intros z Hz. unfold score_geq in *.
        eapply float_leb_trans; eassumption.
Qed.

Lemma sorted_desc_sorted l :
  Forall (fun p => scored p = true) l ->
  StronglySorted score_geq (sorted_desc l).
Proof.
  induction 1 as [|x r Hx Hr IH]; simpl.
  - constructor.
  - apply insert_desc_sorted; [assumption| |assumption].
    apply (Permutation_Forall (Permutation_sym (sorted_desc_perm r))).
    assumption.
Qed.

Lemma insert_desc_stable k x l :
  List.filter (same_score k) (insert_desc x l)
  = List.filter (same_score k) (x :: l).
Proof.
  induction l as [|y r IH]; [reflexivity|].
  cbn [insert_desc].
  destruct (PrimFloat.ltb (sort_key x) (sort_key y)) eqn:Hlt; [|reflexivity].
  cbn [List.filter] in *. rewrite IH.
  destruct (same_score k x) eqn:Ex, (same_score k y) eqn:Ey; try reflexivity.
  unfold same_score in Ex, Ey.
  rewrite (float_eqb_not_ltb _ _ _ Ex Ey) in Hlt. discriminate.
Qed.

Lemma sorted_desc_stable k l :
  List.filter (same_score k) (sorted_desc l) = List.filter (same_score k) l.
Proof.
  induction l as [|x r IH]; [reflexivity|].
  cbn [sorted_desc fold_right]. fold (sorted_desc r).
  rewrite insert_desc_stable. cbn [List.filter]. now rewrite IH.
Qed.

(** ** The formatting of the ranker *)

Lemma format_products_spec l :
  forall next,
    Forall2 formats (fst (format_products next l)) l
    /\ map id (fst (format_products next l)) = map Some (seq next (length l))
    /\ snd (format_products next l) = next + length l.
Proof.
  induction l as [|p rest IH]; intros next; simpl.
  - split; [constructor | split; [reflexivity | lia]].
  - destruct (IH (S next)) as (Hf & Hid & Hn).
    destruct (format_products (S next) rest) as [formatted next2]; simpl in *.
    split; [|split].
    + constructor; [now exists next | assumption].
    + now rewrite Hid.
    + rewrite Hn. lia.
Qed.

Lemma format_products_scores l :
  forall next,
    Forall (fun p => scored p = true) l ->
    map relevance_score (fst (format_products next l)) = map relevance_score l.
Proof.
  induction l as [|p rest IH]; intros next Hl; simpl; [reflexivity|].
  inversion Hl as [|? ? Hp Hrest]; subst.
  specialize (IH (S next) Hrest).
  destruct (format_products (S next) rest) as [formatted next2]; simpl in *.
  rewrite IH. f_equal.
  unfold scored in Hp. destruct (relevance_score p); [reflexivity|discriminate].
Qed.

Lemma format_products_length l next :
  length (fst (format_products next l)) = length l.
Proof.
  destruct (format_products_spec l next) as (Hf & _ & _).
  clear -Hf. induction Hf; simpl; [reflexivity|now f_equal].
Qed.

(** ** C8: the fallback scorer *)

(** C8. With no scoring port configured (neither key set), the scorer keeps
    the length and the order of the candidate list and gives the candidate at
    position [i] the score [max(0.1, 1.0 - i * 0.1)] and the explanation that
    quotes the original query; nothing else of a candidate changes. *)
Theorem fallback_scorer_linear_decay (self : AIShoppingService) (pt : ports)
  (candidates : list product) (original_query : string) :
  together_api_key self = EmptyString ->
  openrouter_api_key self = EmptyString ->
  length (_analyze_products_with_ai self pt candidates original_query)
  = length candidates
  /\ forall i p,
      nth_error candidates i = Some p ->
      nth_error (_analyze_products_with_ai self pt candidates original_query) i
      = Some (update
                {| a_relevance_score :=
                     Some (py_max 0.1
                             (PrimFloat.sub 1.0
                                (PrimFloat.mul (float_of_nat i) 0.1)));
                   a_explanation :=
                     Some ("Product matches your search for: "
                           +:+ original_query) |} p).
Proof.
  intros Ht Ho. rewrite (unconfigured_scorer self pt _ _ Ht Ho). split.
  - apply decay_scoring_length.
  - intros i p Hp. now rewrite (decay_scoring_nth _ _ 0 i p Hp).
Qed.

(** The three candidates of the fallback catalog, phone entries first, score
    1.0, 0.9 and 0.8. *)
Lemma fallback_scorer_three_candidates :
  together_api_key service_no_keys = EmptyString
  /\ openrouter_api_key service_no_keys = EmptyString
  /\ map relevance_score
       (_analyze_products_with_ai service_no_keys ports_down
          three_candidates "laptop")
     = [Some 1.0%float; Some 0.9%float; Some 0.8%float]
  /\ length (_analyze_products_with_ai service_no_keys ports_down
               three_candidates "laptop") = length three_candidates
  /\ forall i p,
      nth_error three_candidates i = Some p ->
      nth_error (_analyze_products_with_ai service_no_keys ports_down
                   three_candidates "laptop") i
      = Some (update
                {| a_relevance_score :=
                     Some (py_max 0.1
                             (PrimFloat.sub 1.0
                                (PrimFloat.mul (float_of_nat i) 0.1)));
                   a_explanation :=
                     Some ("Product matches your search for: " +:+ "laptop") |}
                p).
Proof.
  split; [reflexivity|]. split; [reflexivity|]. split; [vm_compute; reflexivity|].
  apply (fallback_scorer_linear_decay service_no_keys ports_down
           three_candidates "laptop"); reflexivity.
Defined.

(** The score is floored at 0.1 from the tenth candidate on. *)
Example linear_decay_floor :
  map linear_decay [8; 9; 10; 25] = [0.19999999999999996%float; 0.1%float; 0.1%float; 0.1%float].
Proof. vm_compute. reflexivity. Qed.

(** ** C6: the ranker sorts stably, best score first *)

(** C6. On scored candidates the ranker's output is the formatting, entry by
    entry and with the scores kept, of a list that is a permutation of the
    input, in which no entry scores below a later one, and in which the
    candidates of any one score stand in their input order. *)
Theorem rank_is_stable_descending_sort (candidates : list product)
  (next : uuid) :
  forallb scored candidates = true ->
  exists sorted,
    Forall2 formats (fst (_rank_products candidates next)) sorted
    /\ map relevance_score (fst (_rank_products candidates next))
       = map relevance_score sorted
    /\ Permutation sorted candidates
    /\ StronglySorted score_geq sorted
    /\ forall k,
        List.filter (same_score k) sorted
        = List.filter (same_score k) candidates.
Proof.
  intros Hs. exists (sorted_desc candidates).
  assert (Hall : Forall (fun p => scored p = true) candidates).
  { apply List.Forall_forall. now apply forallb_forall. }
  unfold _rank_products.
  destruct (format_products_spec (sorted_desc candidates) next) as (Hf & _ & _).
  repeat split.
  - exact Hf.
  - apply format_products_scores.
    now apply (Permutation_Forall (Permutation_sym (sorted_desc_perm _))).
  - apply sorted_desc_perm.
  - now apply sorted_desc_sorted.
  - intros k. apply sorted_desc_stable.
Qed.

(** Scores 0.2, 0.9, 0.9, 0.1 come out as 0.9, 0.9, 0.2, 0.1, the two
    candidates of score 0.9 in their input order. *)
Lemma rank_four_scored :
  forallb scored four_scored = true
  /\ map title (fst (_rank_products four_scored 0))
     = [Some "b"; Some "c"; Some "a"; Some "d"]
  /\ exists sorted,
      Forall2 formats (fst (_rank_products four_scored 0)) sorted
      /\ map relevance_score (fst (_rank_products four_scored 0))
         = map relevance_score sorted
      /\ Permutation sorted four_scored
      /\ StronglySorted score_geq sorted
      /\ forall k,
          List.filter (same_score k) sorted
          = List.filter (same_score k) four_scored.
Proof.
  split; [reflexivity|]. split; [vm_compute; reflexivity|].
  apply (rank_is_stable_descending_sort four_scored 0). reflexivity.
Defined.

(** ** C7: formatting, identifiers and the cut to ten *)

Lemma seq_Some_NoDup next n : NoDup (map Some (seq next n)).
Proof.
  revert next. induction n as [|n IH]; intros next; simpl.
  - constructor.
  - constructor; [|apply IH].
    rewrite list_elem_of_In, in_map_iff. intros (m & Hm & Hin).
    injection Hm as ->. apply in_seq in Hin. lia.
Qed.

(** The ranker itself does not cut its output: eleven candidates give eleven
    products. *)
Lemma rank_eleven_not_cut :
  ~ length (fst (_rank_products eleven_scored 0)) <= 10.
Proof. vm_compute. lia. Qed.

(** C7, amended. The ranker returns one formatted product per candidate, in
    the order of the sort, under the next identifiers of the supply, which
    are pairwise distinct; a formatted product holds the display default for
    each absent field and In Stock as availability. The cut to the ten best
    is made by the one-shot search on the ranker's output. *)
Theorem rank_formats_all_search_keeps_ten :
  (forall candidates next,
      length (fst (_rank_products candidates next)) = length candidates
      /\ Forall2 formats (fst (_rank_products candidates next))
           (sorted_desc candidates)
      /\ map id (fst (_rank_products candidates next))
         = map Some (seq next (length candidates))
      /\ NoDup (map id (fst (_rank_products candidates next))))
  /\ (forall i p,
        id (format_product i p) = Some i
        /\ image_url (format_product i p)
           = Some (default "/static/placeholder-product.svg" (image_url p))
        /\ price (format_product i p)
           = Some (default "Price not available" (price p))
        /\ availability (format_product i p) = Some "In Stock"
        /\ source (format_product i p) = Some (default "Unknown" (source p))
        /\ url (format_product i p) = Some (default "#" (url p)))
  /\ (forall self pt query next,
        length (sr_products (fst (process_search_query self pt query next)))
        <= 10
        /\ exists candidates,
            sr_products (fst (process_search_query self pt query next))
            = firstn 10
                (fst (_rank_products
                        (_analyze_products_with_ai self pt candidates query)
                        next))).
Proof.
  split; [|split].
  - intros candidates next. unfold _rank_products.
    destruct (format_products_spec (sorted_desc candidates) next)
      as (Hf & Hid & _).
    assert (Hlen : length (sorted_desc candidates) = length candidates)
      by apply Permutation_length, sorted_desc_perm.
    rewrite format_products_length, Hid, Hlen.
    repeat split; try assumption. apply seq_Some_NoDup.
  - intros i p. repeat split.
  - intros self pt query next. unfold process_search_query.
    destruct (_search_products_with_serpapi _ _ _) as [results|e].
    + destruct (_rank_products _ next) as [ranked next1] eqn:Hr.
      unfold search_reply; simpl. split.
      * rewrite List.length_firstn. lia.
      * eexists. now rewrite Hr.
    + destruct (_rank_products _ next) as [ranked next1] eqn:Hr.
      unfold search_reply; simpl. split.
      * rewrite List.length_firstn. lia.
      * eexists. now rewrite Hr.
Qed.

(** ** C5: the filtered fallback *)

Lemma fallback_products_nonempty query : _get_fallback_products query <> [].
Proof.
  unfold _get_fallback_products.
  destruct (Str.any_in _ _); [discriminate|].
  destruct (Str.any_in _ _); discriminate.
Qed.

(** Every entry of the catalog has a title and a price, so the two lookups
    of the filter loop find their key. *)
Lemma fallback_products_titled query :
  Forall (fun p => is_Some (title p) /\ is_Some (price p))
    (_get_fallback_products query).
Proof.
  unfold _get_fallback_products.
  destruct (Str.any_in _ _); [|destruct (Str.any_in _ _)];
    repeat constructor; simpl; eauto.
Qed.

Lemma brand_rejects_spec filters p :
  brand_rejects filters p = negb (brand_passes filters p).
Proof.
  unfold brand_rejects, brand_passes.
  destruct (dict_get "brand" filters) as [brand|]; [|reflexivity].
  now rewrite negb_orb.
Qed.

Lemma price_rejects_spec filters p :
  price_rejects filters p = negb (price_passes filters p).
Proof.
  unfold price_rejects, price_passes, numeric_price, requested.
  destruct (dict_get "price" filters) as [price_filter|]; [|reflexivity].
  destruct (Str.int _) as [n|]; [|reflexivity].
  destruct (Str.contains "Under ₹" price_filter).
  - destruct (nth_error _ 1) as [part|]; [|reflexivity]. simpl.
    destruct (Str.int _) as [max_price|]; [|reflexivity]. simpl.
    now rewrite Z.ltb_antisym, negb_involutive.
  - destruct (Str.contains "-" price_filter); [|reflexivity].
    destruct (Str.split _ _) as [|lo [|hi [|? ?]]]; try reflexivity.
    destruct (Str.int (Str.strip lo)) as [min_price|]; [|reflexivity].
    destruct (Str.int (Str.strip hi)) as [max_price|]; reflexivity.
Qed.

Lemma filter_loop_spec filters base_products :
  filter_loop filters base_products
  = map (set_explanation (filter_explanation filters))
      (List.filter
         (fun p => brand_passes filters p && price_passes filters p)
         base_products).
Proof.
  induction base_products as [|p rest IH]; [reflexivity|].
  cbn [filter_loop List.filter].
  rewrite brand_rejects_spec, price_rejects_spec.
  destruct (brand_passes filters p); simpl; [|exact IH].
  destruct (price_passes filters p); simpl; [|exact IH].
  now rewrite IH.
Qed.

(** C5. The filtered fallback keeps the catalog entries of the keyword that
    pass the brand filter (no brand chosen, an any-brand option, or the brand
    within the title, case ignored) and the price filter (the numeric price
    within the bound or band asked for; an entry whose price does not parse
    is kept), each with the explanation of the filters; when no entry is
    kept it returns the whole catalog of the keyword. Its result is never
    empty. *)
Theorem filtered_fallback_never_empty (keyword : string)
  (filters : list (string * string)) :
  _get_filtered_fallback_products keyword filters
  = match List.filter
            (fun p => brand_passes filters p && price_passes filters p)
            (_get_fallback_products keyword) with
    | [] => _get_fallback_products keyword
    | kept => map (set_explanation (filter_explanation filters)) kept
    end
  /\ _get_filtered_fallback_products keyword filters <> [].
Proof.
  unfold _get_filtered_fallback_products. rewrite filter_loop_spec.
  destruct (List.filter _ _) as [|p kept] eqn:Hkept; simpl.
  - split; [reflexivity|apply fallback_products_nonempty].
  - split; [reflexivity|discriminate].
Qed.

(** Brand Samsung against the laptop catalog, which has no Samsung title:
    nothing passes and the whole catalog comes back. *)
Example samsung_laptop_falls_back :
  List.filter (fun p => brand_passes [("brand", "Samsung")] p
                        && price_passes [("brand", "Samsung")] p)
    (_get_fallback_products "laptop") = []
  /\ _get_filtered_fallback_products "laptop" [("brand", "Samsung")]
     = _get_fallback_products "laptop".
Proof. split; vm_compute; reflexivity. Qed.

(** A band that holds the price of one of the two phones keeps that phone. *)
Example phone_band_keeps_one :
  map title
    (_get_filtered_fallback_products "phone"
       [("brand", "Popular Brands"); ("price", "₹20,000 - ₹35,000")])
  = [Some "Realme 11 Pro+ 5G (Oasis Green, 256GB)"].
Proof. vm_compute. reflexivity. Qed.

(** ** The session table *)

Lemma ensure_session_insert (m : gmap string session) sid :
  ensure_session m sid = <[sid := default fresh_session (m !! sid)]> m.
Proof.
  unfold ensure_session. destruct (m !! sid) as [s|] eqn:Hs; simpl.
  - symmetry. now apply insert_id.
  - reflexivity.
Qed.

Lemma ensure_session_lookup (m : gmap string session) sid :
  ensure_session m sid !! sid = Some (default fresh_session (m !! sid)).
Proof. rewrite ensure_session_insert. apply lookup_insert_eq. Qed.

Lemma insert_ensure_session (m : gmap string session) sid s :
  <[sid := s]> (ensure_session m sid) = <[sid := s]> m.
Proof. rewrite ensure_session_insert. apply insert_insert_eq. Qed.

Lemma eqb_false_neq (a b : string) : String.eqb a b = false -> a <> b.
Proof. intros H Hab. apply String.eqb_eq in Hab. congruence. Qed.

(** ** The filter catalog *)

Lemma filters_at_least_two keyword :
  2 <= length (_get_available_filters keyword).
Proof.
  unfold _get_available_filters.
  repeat (destruct (Str.mem keyword _); [simpl; lia|]). simpl; lia.
Qed.

Lemma filters_params_nodup keyword :
  NoDup (map param (_get_available_filters keyword)).
Proof.
  unfold _get_available_filters.
  repeat (destruct (Str.mem keyword _); [simpl; compute_done|]).
  simpl; compute_done.
Qed.

(** ** The answered-filters dictionary *)

Lemma dict_set_new_key k v d :
  ~ In k (map fst d) -> map fst (dict_set k v d) = map fst d ++ [k].
Proof.
  induction d as [|[k' v'] r IH]; simpl; intros Hk.
  - reflexivity.
  - destruct (String.eqb k k') eqn:E.
    + apply String.eqb_eq in E. exfalso. apply Hk. left. congruence.
    + simpl. rewrite IH; [reflexivity|tauto].
Qed.

Lemma firstn_snoc {A} (l : list A) n x :
  nth_error l n = Some x -> firstn (n + 1) l = firstn n l ++ [x].
Proof.
  revert n. induction l as [|a r IH]; intros [|n] H; simpl in *;
    try discriminate.
  - now injection H as ->.
  - now rewrite (IH n H).
Qed.

Lemma nodup_nth_not_before {A} (l : list A) n x :
  NoDup l -> nth_error l n = Some x -> ~ In x (firstn n l).
Proof.
  intros Hl. revert n. induction Hl as [|a r Ha Hr IH]; intros [|n] H; simpl in *;
    try discriminate; try tauto.
  intros [->|Hin].
  - apply Ha, list_elem_of_In. eapply nth_error_In; eassumption.
  - now apply (IH n H).
Qed.

Lemma store_choice_ok f answer s :
  session_ok s ->
  stage s <> "initial" ->
  nth_error (available_filters s) (current_filter_index s) = Some f ->
  session_ok (store_choice f answer s).
Proof.
  intros (Hle & Hkeys & Hnd & Hinit & Hdef) Hstage Hf.
  assert (Hlt : current_filter_index s < length (available_filters s)).
  { apply nth_error_Some. congruence. }
  unfold session_ok, store_choice; simpl. split; [|split; [|split; [|split]]].
  - lia.
  - rewrite dict_set_new_key.
    + rewrite (firstn_snoc _ _ _ Hf), map_app, Hkeys. reflexivity.
    + rewrite Hkeys, <- firstn_map.
      apply nodup_nth_not_before; [assumption|].
      now apply map_nth_error.
  - assumption.
  - intros Hs. contradiction.
  - exact Hdef.
Qed.

(** ** The branches of [process_chat_message] *)

Lemma chat_initial_keyword self pt msg sid keyword f rest :
  stage (session_of self sid) = "initial" ->
  _extract_product_keyword msg = Some keyword ->
  _get_available_filters keyword = f :: rest ->
  process_chat_message self pt msg sid
  = (filter_prompt
       ("Great! I found filters for " +:+ keyword
        +:+ ". Let's refine your search step by step." +:+ Str.nl +:+ Str.nl)
       f,
     set_user_sessions
       (<[sid := begin_filters keyword (f :: rest) (session_of self sid)]>
          (user_sessions self)) self).
Proof.
  intros Hs Hk Hf. unfold process_chat_message.
  rewrite ensure_session_lookup. simpl default. fold (session_of self sid).
  rewrite Hs, Hk, Hf. simpl. now rewrite insert_ensure_session.
Qed.

Lemma chat_initial_no_keyword self pt msg sid :
  stage (session_of self sid) = "initial" ->
  _extract_product_keyword msg = None ->
  process_chat_message self pt msg sid
  = (no_products clarifying_prompt,
     set_user_sessions
       (<[sid := session_of self sid]> (user_sessions self)) self).
Proof.
  intros Hs Hk. unfold process_chat_message.
  rewrite ensure_session_lookup. simpl default. fold (session_of self sid).
  rewrite Hs, Hk. simpl. now rewrite ensure_session_insert.
Qed.

Lemma chat_conversational self pt msg sid :
  stage (session_of self sid) <> "initial" ->
  no_pending_filter (session_of self sid) ->
  process_chat_message self pt msg sid
  = (no_products (_generate_conversational_response msg),
     set_user_sessions
       (<[sid := session_of self sid]> (user_sessions self)) self).
Proof.
  intros Hs Hp. unfold process_chat_message.
  rewrite ensure_session_lookup. simpl default. fold (session_of self sid).
  destruct (String.eqb (stage (session_of self sid)) "initial") eqn:Ei.
  { apply String.eqb_eq in Ei. contradiction. }
  destruct (String.eqb (stage (session_of self sid)) "getting_filters") eqn:Eg.
  - apply String.eqb_eq in Eg. destruct Hp as [Hp|Hp]; [contradiction|].
    rewrite Hp. now rewrite ensure_session_insert.
  - now rewrite ensure_session_insert.
Qed.

Lemma chat_next_filter self pt msg sid f g :
  stage (session_of self sid) = "getting_filters" ->
  nth_error (available_filters (session_of self sid))
    (current_filter_index (session_of self sid)) = Some f ->
  nth_error (available_filters (session_of self sid))
    (current_filter_index (session_of self sid) + 1) = Some g ->
  process_chat_message self pt msg sid
  = (filter_prompt EmptyString g,
     set_user_sessions
       (<[sid := store_choice f msg (session_of self sid)]>
          (user_sessions self)) self).
Proof.
  intros Hs Hf Hg. unfold process_chat_message.
  rewrite ensure_session_lookup. simpl default. fold (session_of self sid).
  rewrite Hs, Hf. simpl. rewrite Hg. now rewrite insert_ensure_session.
Qed.

Lemma chat_last_filter self pt msg sid f keyword :
  stage (session_of self sid) = "getting_filters" ->
  nth_error (available_filters (session_of self sid))
    (current_filter_index (session_of self sid)) = Some f ->
  nth_error (available_filters (session_of self sid))
    (current_filter_index (session_of self sid) + 1) = None ->
  product_keyword (session_of self sid) = Some keyword ->
  process_chat_message self pt msg sid
  = match _search_with_filters self pt keyword
            (dict_set (param f) (Str.strip msg)
               (current_filters (session_of self sid))) with
    | Ok results =>
        (with_products
           ("Here are your filtered results for " +:+ keyword +:+ ":") results,
         set_user_sessions (<[sid := fresh_session]> (user_sessions self)) self)
    | Raise _ =>
        (error_response,
         set_user_sessions
           (<[sid := set_stage "searching"
                       (store_choice f msg (session_of self sid))]>
              (user_sessions self)) self)
    end.
Proof.
  intros Hs Hf Hg Hk. unfold process_chat_message.
  rewrite ensure_session_lookup. simpl default. fold (session_of self sid).
  rewrite Hs, Hf. simpl. rewrite Hg, Hk.
  destruct (_search_with_filters _ _ _ _); now rewrite insert_ensure_session.
Qed.

Lemma chat_last_filter_no_keyword self pt msg sid f :
  stage (session_of self sid) = "getting_filters" ->
  nth_error (available_filters (session_of self sid))
    (current_filter_index (session_of self sid)) = Some f ->
  nth_error (available_filters (session_of self sid))
    (current_filter_index (session_of self sid) + 1) = None ->
  product_keyword (session_of self sid) = None ->
  process_chat_message self pt msg sid
  = (error_response,
     set_user_sessions
       (<[sid := set_stage "searching"
                   (store_choice f msg (session_of self sid))]>
          (user_sessions self)) self).
Proof.
  intros Hs Hf Hg Hk. unfold process_chat_message.
  rewrite ensure_session_lookup. simpl default. fold (session_of self sid).
  rewrite Hs, Hf. simpl. rewrite Hg, Hk. now rewrite insert_ensure_session.
Qed.

(** ** The invariant of the session table *)

Lemma fresh_session_ok : session_ok fresh_session.
Proof.
  unfold session_ok; simpl. split; [lia|]. split; [reflexivity|].
  split; [constructor|]. split; [intros _; now split|]. now left.
Qed.

Lemma begin_filters_ok keyword s :
  session_ok s ->
  stage s = "initial" ->
  session_ok (begin_filters keyword (_get_available_filters keyword) s).
Proof.
  intros (_ & _ & _ & Hinit & _) Hs. destruct (Hinit Hs) as [Hcf Hidx].
  unfold session_ok, begin_filters; simpl. rewrite Hcf, Hidx.
  split; [lia|]. split; [reflexivity|].
  split; [apply filters_params_nodup|].
  split; [intros H; discriminate H|]. right. now left.
Qed.

Lemma set_stage_searching_ok s :
  session_ok s -> session_ok (set_stage "searching" s).
Proof.
  intros (Hle & Hkeys & Hnd & _).
  unfold session_ok, set_stage; simpl.
  split; [assumption|]. split; [assumption|]. split; [assumption|].
  split; [intros H; discriminate H|]. right. now right.
Qed.

(** What a message does to the session table: the session of its key is
    replaced, and the invariant carries over. *)
Lemma chat_session_table self pt msg sid :
  exists s',
    user_sessions (snd (process_chat_message self pt msg sid))
    = <[sid := s']> (user_sessions self)
    /\ (session_ok (session_of self sid) -> session_ok s').
Proof.
  set (s := session_of self sid).
  destruct (String.eqb (stage s) "initial") eqn:Ei.
  - apply String.eqb_eq in Ei.
    destruct (_extract_product_keyword msg) as [keyword|] eqn:Hk.
    + destruct (_get_available_filters keyword) as [|f rest] eqn:Hf.
      { pose proof (filters_at_least_two keyword) as H2.
        rewrite Hf in H2. simpl in H2. lia. }
      rewrite (chat_initial_keyword self pt msg sid keyword f rest Ei Hk Hf).
      eexists; split; [reflexivity|].
      intros Hok. rewrite <- Hf. now apply begin_filters_ok.
    + rewrite (chat_initial_no_keyword self pt msg sid Ei Hk).
      eexists; split; [reflexivity|]. auto.
  - apply eqb_false_neq in Ei.
    destruct (String.eqb (stage s) "getting_filters") eqn:Eg.
    + apply String.eqb_eq in Eg.
      destruct (nth_error (available_filters s) (current_filter_index s))
        as [f|] eqn:Hf.
      * destruct (nth_error (available_filters s) (current_filter_index s + 1))
          as [g|] eqn:Hg.
        { rewrite (chat_next_filter self pt msg sid f g Eg Hf Hg).
          eexists; split; [reflexivity|].
          intros Hok. now apply store_choice_ok. }
        destruct (product_keyword s) as [keyword|] eqn:Hkw.
        { rewrite (chat_last_filter self pt msg sid f keyword Eg Hf Hg Hkw).
          destruct (_search_with_filters _ _ _ _);
            (eexists; split; [reflexivity|]); intros Hok.
          - apply fresh_session_ok.
          - apply set_stage_searching_ok. now apply store_choice_ok. }
        rewrite (chat_last_filter_no_keyword self pt msg sid f Eg Hf Hg Hkw).
        eexists; split; [reflexivity|]. intros Hok.
        apply set_stage_searching_ok. now apply store_choice_ok.
      * rewrite (chat_conversational self pt msg sid Ei (or_intror Hf)).
        eexists; split; [reflexivity|]. auto.
    + apply eqb_false_neq in Eg.
      rewrite (chat_conversational self pt msg sid Ei (or_introl Eg)).
      eexists; split; [reflexivity|]. auto.
Qed.

Lemma session_of_ok self sid : table_ok self -> session_ok (session_of self sid).
Proof.
  intros H. unfold session_of.
  destruct (user_sessions self !! sid) as [s|] eqn:Hs; simpl.
  - eapply H; eassumption.
  - apply fresh_session_ok.
Qed.

Lemma chat_table_ok self t : table_ok self -> table_ok (chat self t).
Proof.
  destruct t as [[pt msg] sid]. intros Hok sid' s'. unfold chat.
  destruct (chat_session_table self pt msg sid) as (s1 & -> & Hs1).
  destruct (decide (sid = sid')) as [->|Hne].
  - rewrite lookup_insert_eq. intros [= <-]. apply Hs1, session_of_ok, Hok.
  - rewrite lookup_insert_ne by assumption. apply Hok.
Qed.

Lemma run_table_ok turns :
  forall self, table_ok self -> table_ok (run self turns).
Proof.
  induction turns as [|t rest IH]; intros self Hok; simpl.
  - assumption.
  - apply IH, chat_table_ok, Hok.
Qed.

Lemma new_service_table_ok phi3 serp together openrouter :
  table_ok (new_service phi3 serp together openrouter).
Proof. intros sid s. simpl. now rewrite lookup_empty. Qed.

Lemma session_ok_counts s :
  session_ok s ->
  length (current_filters s) = current_filter_index s
  /\ 0 <= current_filter_index s <= length (available_filters s).
Proof.
  intros (Hle & Hkeys & _). split; [|lia].
  rewrite <- (length_map fst), Hkeys, length_map, List.length_firstn. lia.
Qed.

Lemma session_of_insert self m sid s :
  session_of (set_user_sessions (<[sid := s]> m) self) sid = s.
Proof. unfold session_of. simpl. now rewrite lookup_insert_eq. Qed.

Lemma session_of_insert_ne self m sid sid' s :
  sid <> sid' ->
  session_of (set_user_sessions (<[sid := s]> m) self) sid'
  = default fresh_session (m !! sid').
Proof. intros H. unfold session_of. simpl. now rewrite lookup_insert_ne. Qed.

(** ** C4: the cursor counts the answered filters *)

(** C4. In every session of the table, after any sequence of messages sent
    to a newly created service under any behaviour of the ports, the number
    of answered filters equals the cursor, and the cursor lies between 0 and
    the length of the filter sequence. *)
Theorem answered_filters_match_cursor (phi3 serp together openrouter : string)
  (turns : list turn) (sid : string) (s : session) :
  user_sessions (run (new_service phi3 serp together openrouter) turns) !! sid
  = Some s ->
  length (current_filters s) = current_filter_index s
  /\ 0 <= current_filter_index s <= length (available_filters s).
Proof.
  intros Hs. apply session_ok_counts.
  eapply run_table_ok; [apply new_service_table_ok|exact Hs].
Qed.

(** The laptop dialogue after its brand answer: one answer, cursor 1, four
    filters. *)
Lemma cursor_after_brand_answer :
  user_sessions (run service_no_keys (firstn 2 laptop_dialogue)) !! user
  = Some laptop_session_after_brand
  /\ length (current_filters laptop_session_after_brand)
     = current_filter_index laptop_session_after_brand
  /\ 0 <= current_filter_index laptop_session_after_brand
     <= length (available_filters laptop_session_after_brand).
Proof.
  assert (H : user_sessions (run service_no_keys (firstn 2 laptop_dialogue))
              !! user = Some laptop_session_after_brand)
    by (vm_compute; reflexivity).
  split; [exact H|].
  exact (answered_filters_match_cursor EmptyString EmptyString EmptyString
           EmptyString (firstn 2 laptop_dialogue) user
           laptop_session_after_brand H).
Defined.

(** ** C10: a recognized keyword always opens the filter dialogue *)

(** C10. The filter catalog returns at least two filters for every string;
    so a message in which a keyword is recognized, sent in the initial
    stage, is answered with the prompt of the first filter of the keyword
    and moves the session to the stage [getting_filters] with that filter
    sequence: the branch that searches at once is never taken. *)
Theorem recognized_keyword_enters_filter_dialogue (self : AIShoppingService)
  (pt : ports) (msg sid keyword : string) :
  stage (session_of self sid) = "initial" ->
  _extract_product_keyword msg = Some keyword ->
  (forall k, 2 <= length (_get_available_filters k))
  /\ exists f rest,
      _get_available_filters keyword = f :: rest
      /\ fst (process_chat_message self pt msg sid)
         = filter_prompt
             ("Great! I found filters for " +:+ keyword
              +:+ ". Let's refine your search step by step."
              +:+ Str.nl +:+ Str.nl) f
      /\ has_products (fst (process_chat_message self pt msg sid)) = false
      /\ session_of (snd (process_chat_message self pt msg sid)) sid
         = begin_filters keyword (f :: rest) (session_of self sid)
      /\ stage (session_of (snd (process_chat_message self pt msg sid)) sid)
         = "getting_filters".
Proof.
  intros Hs Hk. split; [apply filters_at_least_two|].
  destruct (_get_available_filters keyword) as [|f rest] eqn:Hf.
  { pose proof (filters_at_least_two keyword) as H2.
    rewrite Hf in H2. simpl in H2. lia. }
  exists f, rest.
  rewrite (chat_initial_keyword self pt msg sid keyword f rest Hs Hk Hf).
  simpl. rewrite !session_of_insert. repeat split.
Qed.

(** A first message that names a smartphone. *)
Lemma smartphone_enters_filter_dialogue :
  stage (session_of service_no_keys user) = "initial"
  /\ _extract_product_keyword "I need a smartphone" = Some "smartphone"
  /\ filter_name
       (fst (process_chat_message service_no_keys ports_down
               "I need a smartphone" user)) = Some "Brand"
  /\ (forall k, 2 <= length (_get_available_filters k))
  /\ exists f rest,
      _get_available_filters "smartphone" = f :: rest
      /\ fst (process_chat_message service_no_keys ports_down
                "I need a smartphone" user)
         = filter_prompt
             ("Great! I found filters for " +:+ "smartphone"
              +:+ ". Let's refine your search step by step."
              +:+ Str.nl +:+ Str.nl) f
      /\ has_products
           (fst (process_chat_message service_no_keys ports_down
                   "I need a smartphone" user)) = false
      /\ session_of
           (snd (process_chat_message service_no_keys ports_down
                   "I need a smartphone" user)) user
         = begin_filters "smartphone" (f :: rest)
             (session_of service_no_keys user)
      /\ stage
           (session_of
              (snd (process_chat_message service_no_keys ports_down
                      "I need a smartphone" user)) user)
         = "getting_filters".
Proof.
  split; [reflexivity|]. split; [vm_compute; reflexivity|].
  split; [vm_compute; reflexivity|].
  apply (recognized_keyword_enters_filter_dialogue service_no_keys ports_down
           "I need a smartphone" user "smartphone").
  - reflexivity.
  - vm_compute; reflexivity.
Defined.

(** ** C9: what a message that matches nothing is answered with *)

Lemma conversational_reply_canned msg :
  canned (_generate_conversational_response msg).
Proof.
  unfold canned, _generate_conversational_response.
  repeat (destruct (Str.any_in _ _); [tauto|]). tauto.
Qed.

(** A greeting sent to a new session names no product and no filter is
    being collected; the reply is the clarifying prompt of the initial
    stage, not the greeting the substring matching selects and none of the
    four canned replies. *)
Lemma hello_gets_clarifying_prompt :
  _extract_product_keyword "hello" = None
  /\ stage (session_of service_no_keys user) = "initial"
  /\ available_filters (session_of service_no_keys user) = []
  /\ _generate_conversational_response "hello" = greeting_reply
  /\ message (fst (process_chat_message service_no_keys ports_down "hello" user))
     = clarifying_prompt
  /\ message (fst (process_chat_message service_no_keys ports_down "hello" user))
     <> _generate_conversational_response "hello"
  /\ ~ canned
         (message
            (fst (process_chat_message service_no_keys ports_down "hello" user))).
Proof.
  assert (Hm : message (fst (process_chat_message service_no_keys ports_down
                               "hello" user)) = clarifying_prompt)
    by (vm_compute; reflexivity).
  split; [vm_compute; reflexivity|]. split; [reflexivity|].
  split; [reflexivity|]. split; [vm_compute; reflexivity|].
  split; [exact Hm|]. rewrite Hm. split.
  - apply eqb_false_neq. vm_compute; reflexivity.
  - intros [H|[H|[H|H]]]; revert H; apply eqb_false_neq; vm_compute; reflexivity.
Qed.

(** C9, amended. A message in which no keyword is recognized, sent in the
    initial stage, is answered with the fixed clarifying prompt. A message
    sent when the stage is not the initial one and no filter is waiting for
    an answer is answered with the canned reply that substring matching
    over the message selects (greeting, thanks, help or default). Neither
    carries products, and neither changes a session: the table afterwards
    is the table before with the session of the key stored under it, the
    fresh one when the key is new. *)
Theorem unmatched_message_reply (self : AIShoppingService) (pt : ports)
  (msg sid : string) :
  (stage (session_of self sid) = "initial"
   /\ _extract_product_keyword msg = None)
  \/ (stage (session_of self sid) <> "initial"
      /\ no_pending_filter (session_of self sid)) ->
  fst (process_chat_message self pt msg sid)
  = no_products
      (if String.eqb (stage (session_of self sid)) "initial"
       then clarifying_prompt
       else _generate_conversational_response msg)
  /\ canned (_generate_conversational_response msg)
  /\ user_sessions (snd (process_chat_message self pt msg sid))
     = <[sid := session_of self sid]> (user_sessions self)
  /\ forall sid',
      session_of (snd (process_chat_message self pt msg sid)) sid'
      = session_of self sid'.
Proof.
  intros H.
  assert (Hsame : forall sid',
             session_of
               (set_user_sessions
                  (<[sid := session_of self sid]> (user_sessions self)) self)
               sid' = session_of self sid').
  { intros sid'. destruct (decide (sid = sid')) as [<-|Hne].
    - apply session_of_insert.
    - now rewrite session_of_insert_ne. }
  destruct H as [[Hs Hk]|[Hs Hp]].
  - rewrite (chat_initial_no_keyword self pt msg sid Hs Hk), Hs. simpl.
    auto using conversational_reply_canned.
  - rewrite (chat_conversational self pt msg sid Hs Hp).
    destruct (String.eqb (stage (session_of self sid)) "initial") eqn:E.
    { apply String.eqb_eq in E. contradiction. }
    simpl. auto using conversational_reply_canned.
Qed.

(** A greeting sent to the session a failed search left in the stage
    [searching] is answered with the greeting reply. *)
Lemma hello_after_failed_search :
  ((stage (session_of (run service_no_keys
                         (laptop_dialogue_no_rupee ++ [says ports_down "8GB"]))
             user) = "initial"
    /\ _extract_product_keyword "hello" = None)
   \/ (stage (session_of (run service_no_keys
                            (laptop_dialogue_no_rupee ++ [says ports_down "8GB"]))
                user) <> "initial"
       /\ no_pending_filter
            (session_of (run service_no_keys
                           (laptop_dialogue_no_rupee ++ [says ports_down "8GB"]))
               user)))
  /\ fst (process_chat_message
            (run service_no_keys
               (laptop_dialogue_no_rupee ++ [says ports_down "8GB"]))
            ports_down "hello" user)
     = no_products greeting_reply.
Proof.
  assert (Hst : stage (session_of (run service_no_keys
                   (laptop_dialogue_no_rupee ++ [says ports_down "8GB"])) user)
                = "searching") by (vm_compute; reflexivity).
  assert (Hpre :
    (stage (session_of (run service_no_keys
                         (laptop_dialogue_no_rupee ++ [says ports_down "8GB"]))
             user) = "initial"
     /\ _extract_product_keyword "hello" = None)
    \/ (stage (session_of (run service_no_keys
                            (laptop_dialogue_no_rupee ++ [says ports_down "8GB"]))
                user) <> "initial"
        /\ no_pending_filter
             (session_of (run service_no_keys
                            (laptop_dialogue_no_rupee ++ [says ports_down "8GB"]))
                user))).
  { right. rewrite Hst. split; [discriminate|]. left. rewrite Hst. discriminate. }
  split; [exact Hpre|].
  destruct (unmatched_message_reply
              (run service_no_keys
                 (laptop_dialogue_no_rupee ++ [says ports_down "8GB"]))
              ports_down "hello" user Hpre) as (Hr & _).
  rewrite Hr, Hst. vm_compute. reflexivity.
Defined.

(** ** C1: what the last filter answer emits *)

(** The laptop dialogue, no key set: the answer to the last filter emits the
    candidates of the filtered retrieval as they are. They carry no
    relevance score and no identifier, and the emitted list is not the
    ranking of a scoring of the retrieved candidates, whatever the query
    text and the identifier supply. *)
Lemma chat_results_not_scored_ranked :
  _search_with_filters service_no_keys ports_down "laptop"
    (laptop_answers "₹50,000 - ₹80,000")
  = Ok (_get_filtered_fallback_products "laptop"
          (laptop_answers "₹50,000 - ₹80,000"))
  /\ products
       (fst (process_chat_message (run service_no_keys laptop_dialogue)
               ports_down "8GB" user))
     = _get_filtered_fallback_products "laptop"
         (laptop_answers "₹50,000 - ₹80,000")
  /\ map (fun p => (title p, relevance_score p, id p))
       (products
          (fst (process_chat_message (run service_no_keys laptop_dialogue)
                  ports_down "8GB" user)))
     = [(Some "HP Pavilion 15 Intel Core i5 12th Gen Laptop", None, None)]
  /\ ~ exists query next,
        products
          (fst (process_chat_message (run service_no_keys laptop_dialogue)
                  ports_down "8GB" user))
        = fst (_rank_products
                 (_analyze_products_with_ai service_no_keys ports_down
                    (_get_filtered_fallback_products "laptop"
                       (laptop_answers "₹50,000 - ₹80,000")) query) next).
Proof.
  split; [vm_compute; reflexivity|]. split; [vm_compute; reflexivity|].
  split; [vm_compute; reflexivity|].
  intros (query & next & H).
  apply (f_equal (map id)) in H. vm_compute in H. discriminate H.
Qed.

(** C1, amended. When the answer to the last remaining filter arrives, the
    session machine calls the filtered retrieval with the stored keyword and
    the answered-filters map completed by this answer; when the retrieval
    returns, its candidates are emitted as they are, with no scoring and no
    ranking step, flagged as products, and the session is reset to the fresh
    initial one. *)
Theorem last_answer_emits_retrieved_candidates (self : AIShoppingService)
  (pt : ports) (msg sid keyword : string) (f : shopping_filter)
  (results : list product) :
  stage (session_of self sid) = "getting_filters" ->
  nth_error (available_filters (session_of self sid))
    (current_filter_index (session_of self sid)) = Some f ->
  current_filter_index (session_of self sid) + 1
  = length (available_filters (session_of self sid)) ->
  product_keyword (session_of self sid) = Some keyword ->
  _search_with_filters self pt keyword
    (dict_set (param f) (Str.strip msg)
       (current_filters (session_of self sid))) = Ok results ->
  fst (process_chat_message self pt msg sid)
  = with_products ("Here are your filtered results for " +:+ keyword +:+ ":")
      results
  /\ session_of (snd (process_chat_message self pt msg sid)) sid
     = fresh_session.
Proof.
  intros Hs Hf Hlast Hk Hsearch.
  assert (Hg : nth_error (available_filters (session_of self sid))
                 (current_filter_index (session_of self sid) + 1) = None).
  { apply nth_error_None. lia. }
  rewrite (chat_last_filter self pt msg sid f keyword Hs Hf Hg Hk), Hsearch.
  simpl. now rewrite session_of_insert.
Qed.

(** The last answer of the laptop dialogue, no key set. *)
Lemma laptop_last_answer :
  fst (process_chat_message (run service_no_keys laptop_dialogue) ports_down
         "8GB" user)
  = with_products ("Here are your filtered results for " +:+ "laptop" +:+ ":")
      (_get_filtered_fallback_products "laptop"
         (laptop_answers "₹50,000 - ₹80,000"))
  /\ session_of
       (snd (process_chat_message (run service_no_keys laptop_dialogue)
               ports_down "8GB" user)) user
     = fresh_session.
Proof.
  apply (last_answer_emits_retrieved_candidates
           (run service_no_keys laptop_dialogue) ports_down "8GB" user "laptop"
           (mk_filter "RAM" "ram" ["4GB"; "8GB"; "16GB"; "32GB"])
           (_get_filtered_fallback_products "laptop"
              (laptop_answers "₹50,000 - ₹80,000")));
    vm_compute; reflexivity.
Defined.

(** ** C2: a search that raises *)

(** C2 at a failing input. The price answer holds Under and no rupee sign,
    so building the query raises [IndexError] outside the [try] of
    [_search_with_filters]. The handler answers with the start-fresh message,
    and the session stays as the failed turn left it: stage [searching], the
    keyword, the four answers and the cursor at 4. The next message, though
    it names a product, gets the default canned reply. *)
Lemma failed_search_keeps_session :
  build_search_query "laptop" (laptop_answers "Under 60000") = Raise IndexError
  /\ fst (process_chat_message (run service_no_keys laptop_dialogue_no_rupee)
            ports_down "8GB" user)
     = error_response
  /\ user_sessions
       (snd (process_chat_message (run service_no_keys laptop_dialogue_no_rupee)
               ports_down "8GB" user)) !! user
     = Some laptop_session_stuck
  /\ laptop_session_stuck <> fresh_session
  /\ fst (process_chat_message
            (snd (process_chat_message
                    (run service_no_keys laptop_dialogue_no_rupee)
                    ports_down "8GB" user))
            ports_down "I need a phone" user)
     = no_products default_reply.
Proof.
  split; [vm_compute; reflexivity|]. split; [vm_compute; reflexivity|].
  split; [vm_compute; reflexivity|]. split; [discriminate|].
  vm_compute; reflexivity.
Qed.

(** ** What does hold of the two operations *)

Lemma analyze_each_length pt q products :
  forall i, length (analyze_each pt q i products) = length products.
Proof.
  induction products as [|p rest IH]; intros i; simpl; [reflexivity|].
  now rewrite IH.
Qed.

Lemma analyze_products_length self pt products q :
  length (_analyze_products_with_ai self pt products q) = length products.
Proof.
  unfold _analyze_products_with_ai.
  destruct (negb _); [apply decay_scoring_length|].
  destruct (ai_session pt);
    [apply analyze_each_length|apply decay_scoring_length].
Qed.

Lemma rank_products_length products next :
  length (fst (_rank_products products next)) = length products.
Proof.
  unfold _rank_products. rewrite format_products_length.
  apply Permutation_length, sorted_desc_perm.
Qed.

(** The one-shot search returns at least one product whatever the ports do:
    an empty or failed retrieval is replaced by the fallback catalog. *)
Lemma one_shot_search_never_empty self pt query next :
  sr_products (fst (process_search_query self pt query next)) <> [].
Proof.
  assert (Hcut : forall l : list product, l <> [] -> firstn 10 l <> []).
  { intros [|p l] H; [contradiction|discriminate]. }
  assert (Hlen : forall l : list product, 0 < length l -> l <> []).
  { intros [|p l] H; [simpl in H; lia|discriminate]. }
  assert (Hpos : forall l : list product, l <> [] -> 0 < length l).
  { intros [|p l] H; [contradiction|simpl; lia]. }
  unfold process_search_query.
  destruct (_search_products_with_serpapi _ _ _) as [results|e].
  - destruct (_rank_products _ next) as [ranked next1] eqn:Hr.
    unfold search_reply; simpl. apply Hcut, Hlen.
    change ranked with (fst (ranked, next1)). rewrite <- Hr.
    rewrite rank_products_length, analyze_products_length.
    destruct results as [|p l]; [|simpl; lia].
    apply Hpos, fallback_products_nonempty.
  - destruct (_rank_products _ next) as [ranked next1] eqn:Hr.
    unfold search_reply; simpl. apply Hcut, Hlen.
    change ranked with (fst (ranked, next1)). rewrite <- Hr.
    rewrite rank_products_length, analyze_products_length.
    apply Hpos, fallback_products_nonempty.
Qed.

(** A chat turn whose search falls back (no key, or a port that does not
    answer 200) emits at least one product. *)
Lemma filtered_search_falls_back self pt keyword filters results :
  _search_with_filters self pt keyword filters = Ok results ->
  serpapi_key self = EmptyString
  \/ (forall params body, serpapi_get pt params <> Http200 body) ->
  results <> [].
Proof.
  unfold _search_with_filters.
  assert (Hne : _get_filtered_fallback_products keyword filters <> []).
  { unfold _get_filtered_fallback_products.
    destruct (filter_loop _ _); [apply fallback_products_nonempty|discriminate]. }
  destruct (build_search_query keyword filters); [|discriminate].
  intros H [Hkey|Hport].
  - rewrite Hkey in H. simpl in H. now injection H as <-.
  - destruct (negb _); [now injection H as <-|].
    destruct (price_bounds filters) as [[lo hi]|]; [|now injection H as <-].
    destruct (serpapi_get pt _) as [body| |] eqn:Hget;
      [now apply Hport in Hget | now injection H as <- ..].
Qed.

(** No message leaves a session of the table in a stage other than the
    three defined ones. *)
Lemma reachable_stage_defined phi3 serp together openrouter turns sid s :
  user_sessions (run (new_service phi3 serp together openrouter) turns) !! sid
  = Some s ->
  stage_defined s.
Proof.
  intros Hs.
  assert (Hok : session_ok s).
  { eapply run_table_ok; [apply new_service_table_ok|exact Hs]. }
  apply Hok.
Qed.

(** ** C3: a search that finds nothing *)

(** C3 at a failing input. The search key is set and the port answers 200
    with no shopping result. The last answer of the laptop dialogue is then
    answered with a response flagged as holding products whose list is
    empty, although the filtered fallback for the same keyword and answers is
    not empty; the one-shot search against the same port falls back to the
    catalog and returns a product. *)
Lemma empty_search_emits_no_product :
  has_products
    (fst (process_chat_message
            (run service_search_key laptop_dialogue_no_result)
            ports_no_result "8GB" user)) = true
  /\ products
       (fst (process_chat_message
               (run service_search_key laptop_dialogue_no_result)
               ports_no_result "8GB" user)) = []
  /\ _get_filtered_fallback_products "laptop"
       (laptop_answers "₹50,000 - ₹80,000") <> []
  /\ length
       (sr_products
          (fst (process_search_query service_search_key ports_no_result
                  "laptop" 0))) = 1.
Proof.
  split; [vm_compute; reflexivity|]. split; [vm_compute; reflexivity|].
  split; [vm_compute; discriminate|]. vm_compute; reflexivity.
Qed.

(** ** A whole dialogue *)

(** A first message naming a smartphone opens the sequence Brand, Price
    Range, Storage, RAM, and Samsung is among the options of the first
    prompt. *)
Example smartphone_filter_sequence :
  map name
    (available_filters
       (session_of
          (run service_no_keys [says ports_down "I need a smartphone"]) user))
  = ["Brand"; "Price Range"; "Storage"; "RAM"]
  /\ (exists opts,
        filter_options
          (fst (process_chat_message service_no_keys ports_down
                  "I need a smartphone" user)) = Some opts
        /\ In "Samsung" opts).
Proof.
  split; [vm_compute; reflexivity|].
  eexists. split; [vm_compute; reflexivity|]. simpl. tauto.
Qed.

(** Four prompts, then the products, and the session is fresh again. *)
Example laptop_dialogue_prompts :
  map (fun n =>
         filter_name
           (fst (process_chat_message
                   (run service_no_keys (firstn n laptop_dialogue))
                   ports_down (nth n (map (fun t => snd (fst t)) laptop_dialogue)
                                 "8GB") user)))
    [0; 1; 2; 3; 4]
  = [Some "Brand"; Some "Price Range"; Some "Processor"; Some "RAM"; None]
  /\ session_of
       (run service_no_keys (laptop_dialogue ++ [says ports_down "8GB"])) user
     = fresh_session.
Proof. split; vm_compute; reflexivity. Qed.

(** ** The frame of a chat turn *)

(** A chat turn returns the service with the session of its key replaced. *)
Lemma chat_result_shape self pt msg sid :
  exists s',
    snd (process_chat_message self pt msg sid)
    = set_user_sessions (<[sid := s']> (user_sessions self)) self.
Proof.
  set (s := session_of self sid).
  destruct (String.eqb (stage s) "initial") eqn:Ei.
  - apply String.eqb_eq in Ei.
    destruct (_extract_product_keyword msg) as [keyword|] eqn:Hk.
    + destruct (_get_available_filters keyword) as [|f rest] eqn:Hf.
      { pose proof (filters_at_least_two keyword) as H2.
        rewrite Hf in H2. simpl in H2. lia. }
      rewrite (chat_initial_keyword self pt msg sid keyword f rest Ei Hk Hf).
      eexists; reflexivity.
    + rewrite (chat_initial_no_keyword self pt msg sid Ei Hk).
      eexists; reflexivity.
  - apply eqb_false_neq in Ei.
    destruct (String.eqb (stage s) "getting_filters") eqn:Eg.
    + apply String.eqb_eq in Eg.
      destruct (nth_error (available_filters s) (current_filter_index s))
        as [f|] eqn:Hf.
      * destruct (nth_error (available_filters s) (current_filter_index s + 1))
          as [g|] eqn:Hg.
        { rewrite (chat_next_filter self pt msg sid f g Eg Hf Hg).
          eexists; reflexivity. }
        destruct (product_keyword s) as [keyword|] eqn:Hkw.
        { rewrite (chat_last_filter self pt msg sid f keyword Eg Hf Hg Hkw).
          destruct (_search_with_filters _ _ _ _); eexists; reflexivity. }
        rewrite (chat_last_filter_no_keyword self pt msg sid f Eg Hf Hg Hkw).
        eexists; reflexivity.
      * rewrite (chat_conversational self pt msg sid Ei (or_intror Hf)).
        eexists; reflexivity.
    + apply eqb_false_neq in Eg.
      rewrite (chat_conversational self pt msg sid Ei (or_introl Eg)).
      eexists; reflexivity.
Qed.

(** X1. A chat turn stores a session under its own key and touches nothing
    else: the sessions of all other keys and the four API keys of the
    service are as before. *)
Theorem chat_turn_frame (self : AIShoppingService) (pt : ports)
  (msg sid : string) :
  is_Some (user_sessions (snd (process_chat_message self pt msg sid)) !! sid)
  /\ (forall other,
        other <> sid ->
        user_sessions (snd (process_chat_message self pt msg sid)) !! other
        = user_sessions self !! other)
  /\ phi3_api_key (snd (process_chat_message self pt msg sid))
     = phi3_api_key self
  /\ serpapi_key (snd (process_chat_message self pt msg sid))
     = serpapi_key self
  /\ together_api_key (snd (process_chat_message self pt msg sid))
     = together_api_key self
  /\ openrouter_api_key (snd (process_chat_message self pt msg sid))
     = openrouter_api_key self.
Proof.
  destruct (chat_result_shape self pt msg sid) as (s' & ->). simpl.
  rewrite lookup_insert_eq. split; [eauto|]. split; [|auto].
  intros other Hne. now rewrite lookup_insert_ne.
Qed.

(** ** The stage [searching] is never left *)

Lemma searching_turn self pt msg sid :
  stage (session_of self sid) = "searching" ->
  process_chat_message self pt msg sid
  = (no_products (_generate_conversational_response msg),
     set_user_sessions
       (<[sid := session_of self sid]> (user_sessions self)) self).
Proof.
  intros Hs. apply chat_conversational.
  - rewrite Hs. discriminate.
  - left. rewrite Hs. discriminate.
Qed.

Lemma session_of_other_turn self pt msg sid other :
  other <> sid ->
  session_of (snd (process_chat_message self pt msg sid)) other
  = session_of self other.
Proof.
  intros Hne. destruct (chat_result_shape self pt msg sid) as (s' & ->).
  unfold session_of. simpl. now rewrite lookup_insert_ne.
Qed.

(** X2. A session whose stage is [searching] stays as it is whatever
    messages the service processes afterwards, under its key or another:
    each of its messages is answered with a canned reply that carries no
    products, and no keyword is ever looked for again. *)
Theorem searching_is_absorbing (self : AIShoppingService) (sid : string)
  (turns : list turn) (pt : ports) (msg : string) :
  stage (session_of self sid) = "searching" ->
  session_of (run self turns) sid = session_of self sid
  /\ fst (process_chat_message (run self turns) pt msg sid)
     = no_products (_generate_conversational_response msg).
Proof.
  intros Hs.
  assert (Hrun : forall ts s0, stage (session_of s0 sid) = "searching" ->
                   session_of (run s0 ts) sid = session_of s0 sid).
  { induction ts as [|[[pt1 msg1] sid1] rest IH]; intros s0 H0; [reflexivity|].
    cbn [run fold_left chat]. fold (run (snd (process_chat_message s0 pt1 msg1 sid1)) rest).
    assert (Hstep : session_of (snd (process_chat_message s0 pt1 msg1 sid1)) sid
                    = session_of s0 sid).
    { destruct (decide (sid = sid1)) as [<-|Hne].
      - rewrite (searching_turn s0 pt1 msg1 sid H0). simpl.
        apply session_of_insert.
      - now apply session_of_other_turn. }
    rewrite IH; rewrite Hstep; [reflexivity|exact H0]. }
  split; [now apply Hrun|].
  rewrite searching_turn; [reflexivity|]. now rewrite Hrun.
Qed.

(** The session the failed laptop search left behind. *)
Lemma stuck_laptop_session_is_absorbing :
  stage (session_of
           (run service_no_keys
              (laptop_dialogue_no_rupee ++ [says ports_down "8GB"])) user)
  = "searching"
  /\ session_of
       (run (run service_no_keys
               (laptop_dialogue_no_rupee ++ [says ports_down "8GB"]))
          laptop_dialogue) user
     = session_of
         (run service_no_keys
            (laptop_dialogue_no_rupee ++ [says ports_down "8GB"])) user
  /\ fst (process_chat_message
            (run (run service_no_keys
                    (laptop_dialogue_no_rupee ++ [says ports_down "8GB"]))
               laptop_dialogue) ports_down "I need a laptop" user)
     = no_products (_generate_conversational_response "I need a laptop").
Proof.
  assert (H : stage (session_of
                (run service_no_keys
                   (laptop_dialogue_no_rupee ++ [says ports_down "8GB"])) user)
              = "searching") by (vm_compute; reflexivity).
  split; [exact H|].
  exact (searching_is_absorbing
           (run service_no_keys
              (laptop_dialogue_no_rupee ++ [says ports_down "8GB"]))
           user laptop_dialogue ports_down "I need a laptop" H).
Defined.

(** ** A dialogue from its first message to its search *)

Lemma dict_set_new_entry k v d :
  ~ In k (map fst d) -> dict_set k v d = d ++ [(k, v)].
Proof.
  induction d as [|[k' v'] r IH]; simpl; intros Hk; [reflexivity|].
  destruct (String.eqb k k') eqn:E.
  - apply String.eqb_eq in E. exfalso. apply Hk. left. congruence.
  - rewrite IH; [reflexivity|tauto].
Qed.

Lemma search_with_filters_key a b pt keyword filters :
  serpapi_key a = serpapi_key b ->
  _search_with_filters a pt keyword filters
  = _search_with_filters b pt keyword filters.
Proof. intros H. unfold _search_with_filters. now rewrite H. Qed.

Lemma skipn_nth {A} (l : list A) n x :
  nth_error l n = Some x -> skipn n l = x :: skipn (S n) l.
Proof.
  revert n. induction l as [|a r IH]; intros [|n] H; simpl in *;
    try discriminate.
  - now injection H as ->.
  - now apply IH.
Qed.

Lemma collect_step self pt msg sid keyword fs i answered f g :
  session_of self sid = collecting keyword fs i answered ->
  nth_error fs i = Some f ->
  nth_error fs (i + 1) = Some g ->
  process_chat_message self pt msg sid
  = (filter_prompt EmptyString g,
     set_user_sessions
       (<[sid := collecting keyword fs (i + 1)
                   (dict_set (param f) (Str.strip msg) answered)]>
          (user_sessions self)) self).
Proof.
  intros Hs Hf Hg.
  rewrite (chat_next_filter self pt msg sid f g); rewrite Hs; auto.
Qed.

Lemma collect_run sid keyword fs :
  NoDup (map param fs) ->
  forall answers self i answered,
    session_of self sid = collecting keyword fs i answered ->
    map fst answered = map param (firstn i fs) ->
    i + length answers < length fs ->
    fst (converse self (answers_to sid answers))
    = map (filter_prompt EmptyString)
        (firstn (length answers) (skipn (i + 1) fs))
    /\ session_of (snd (converse self (answers_to sid answers))) sid
       = collecting keyword fs (i + length answers)
           (answered
            ++ combine (map param (firstn (length answers) (skipn i fs)))
                 (map (fun a => Str.strip (snd a)) answers))
    /\ serpapi_key (snd (converse self (answers_to sid answers)))
       = serpapi_key self.
Proof.
  intros Hnd. induction answers as [|[pt msg] rest IH];
    intros self i answered Hs Hkeys Hlen.
  - simpl. rewrite Nat.add_0_r, app_nil_r. auto.
  - simpl in Hlen.
    destruct (nth_error fs i) as [f|] eqn:Hf;
      [|apply nth_error_None in Hf; lia].
    destruct (nth_error fs (i + 1)) as [g|] eqn:Hg;
      [|apply nth_error_None in Hg; lia].
    cbn [answers_to map converse fst snd].
    rewrite (collect_step self pt msg sid keyword fs i answered f g Hs Hf Hg).
    assert (Hfresh : ~ In (param f) (map fst answered)).
    { rewrite Hkeys, <- firstn_map.
      apply nodup_nth_not_before; [assumption|now apply map_nth_error]. }
    rewrite (dict_set_new_entry _ _ _ Hfresh).
    set (self1 := set_user_sessions _ self).
    destruct (IH self1 (i + 1) (answered ++ [(param f, Str.strip msg)]))
      as (Hr & Hsess & Hkey).
    + apply session_of_insert.
    + rewrite map_app, Hkeys, (firstn_snoc _ _ _ Hf), map_app. reflexivity.
    + lia.
    + fold (answers_to sid rest).
      destruct (converse self1 (answers_to sid rest)) as [rs self2].
      simpl in *. split; [|split].
      * rewrite Hr. rewrite (skipn_nth _ _ _ Hg).
        replace (i + 1 + 1) with (S (i + 1)) by lia. reflexivity.
      * rewrite Hsess. rewrite (skipn_nth _ _ _ Hf).
        replace (S i) with (i + 1) by lia.
        replace (i + 1 + length rest) with (i + S (length rest)) by lia.
        simpl. now rewrite <- app_assoc.
      * exact Hkey.
Qed.

Lemma combine_snoc {A B} (l1 : list A) (l2 : list B) a b :
  length l1 = length l2 ->
  combine (l1 ++ [a]) (l2 ++ [b]) = combine l1 l2 ++ [(a, b)].
Proof.
  revert l2. induction l1 as [|x r IH]; intros [|y l2] H; simpl in *;
    try discriminate; [reflexivity|].
  rewrite IH; [reflexivity|lia].
Qed.

Lemma combine_keys {A B} (l1 : list A) (l2 : list B) :
  length l1 = length l2 -> map fst (combine l1 l2) = l1.
Proof.
  revert l2. induction l1 as [|x r IH]; intros [|y l2] H; simpl in *;
    try discriminate; [reflexivity|].
  rewrite IH; [reflexivity|lia].
Qed.

Lemma firstn_last_nth {A} (l : list A) n x :
  nth_error l n = Some x -> S n = length l -> firstn n l ++ [x] = l.
Proof.
  intros Hx Hn. rewrite <- (firstn_snoc l n x Hx).
  apply firstn_all2. lia.
Qed.

(** X3. A dialogue runs through the whole filter sequence. From a fresh
    session, a message in which a keyword is recognized and then one answer
    per filter but the last are answered with the prompts of the keyword's
    filters, in catalog order, none carrying products. The answer to the
    last filter calls the filtered retrieval with the keyword and with the
    map that pairs each filter's parameter key with the stripped answer to
    it, in order; when the retrieval returns, its candidates are emitted and
    the session is fresh again, and when it raises, the start-fresh message
    is emitted and the session is left in the stage [searching]. *)
Theorem dialogue_runs_through_the_filters (self : AIShoppingService)
  (sid : string) (pt0 : ports) (msg0 keyword : string)
  (answers : list (ports * string)) (pt_last : ports) (msg_last : string) :
  session_of self sid = fresh_session ->
  _extract_product_keyword msg0 = Some keyword ->
  S (length answers) = length (_get_available_filters keyword) ->
  map filter_name
    (fst (converse self ((pt0, msg0, sid) :: answers_to sid answers)))
  = map (fun f => Some (name f)) (_get_available_filters keyword)
  /\ Forall (fun r => has_products r = false)
       (fst (converse self ((pt0, msg0, sid) :: answers_to sid answers)))
  /\ match _search_with_filters self pt_last keyword
             (combine (map param (_get_available_filters keyword))
                (map Str.strip (map snd answers ++ [msg_last]))) with
     | Ok results =>
         fst (process_chat_message
                (snd (converse self ((pt0, msg0, sid) :: answers_to sid answers)))
                pt_last msg_last sid)
         = with_products
             ("Here are your filtered results for " +:+ keyword +:+ ":")
             results
         /\ session_of
              (snd (process_chat_message
                      (snd (converse self
                              ((pt0, msg0, sid) :: answers_to sid answers)))
                      pt_last msg_last sid)) sid
            = fresh_session
     | Raise _ =>
         fst (process_chat_message
                (snd (converse self ((pt0, msg0, sid) :: answers_to sid answers)))
                pt_last msg_last sid)
         = error_response
         /\ stage
              (session_of
                 (snd (process_chat_message
                         (snd (converse self
                                 ((pt0, msg0, sid) :: answers_to sid answers)))
                         pt_last msg_last sid)) sid)
            = "searching"
     end.
Proof.
  intros Hs Hk Hlen.
  pose proof (filters_params_nodup keyword) as Hnd.
  remember (_get_available_filters keyword) as fs eqn:Hfs.
  destruct fs as [|f0 rest0]; [discriminate|].
  assert (Hstage : stage (session_of self sid) = "initial") by now rewrite Hs.
  cbn [converse].
  rewrite (chat_initial_keyword self pt0 msg0 sid keyword f0 rest0 Hstage Hk
             (eq_sym Hfs)).
  rewrite Hs.
  change (begin_filters keyword (f0 :: rest0) fresh_session)
    with (collecting keyword (f0 :: rest0) 0 []).
  set (self1 := set_user_sessions _ self).
  assert (Hs1 : session_of self1 sid = collecting keyword (f0 :: rest0) 0 [])
    by apply session_of_insert.
  destruct (collect_run sid keyword (f0 :: rest0) Hnd answers self1 0 []
              Hs1 eq_refl) as (Hr & Hsess & Hkey).
  { simpl in *. lia. }
  destruct (converse self1 (answers_to sid answers)) as [rs self2].
  simpl in Hr, Hsess, Hkey. cbn [fst snd].
  assert (Hn : length answers = length rest0) by (simpl in Hlen; lia).
  assert (Hrest : firstn (length answers) rest0 = rest0)
    by (apply firstn_all2; lia).
  change (skipn 0 rest0) with rest0 in Hr. rewrite Hrest in Hr. subst rs.
  split; [|split].
  - simpl. f_equal. rewrite List.map_map. reflexivity.
  - constructor; [reflexivity|].
    apply List.Forall_forall. intros r Hin.
    apply in_map_iff in Hin as (g & <- & _). reflexivity.
  - destruct (nth_error (f0 :: rest0) (length answers)) as [fl|] eqn:Hfl;
      [|apply nth_error_None in Hfl; simpl in Hfl; lia].
    assert (Hend : nth_error (f0 :: rest0) (length answers + 1) = None)
      by (apply nth_error_None; simpl; lia).
    assert (Hfull : firstn (length answers) (f0 :: rest0) ++ [fl]
                    = f0 :: rest0).
    { apply firstn_last_nth; [assumption|simpl; lia]. }
    assert (Hfresh :
      ~ In (param fl)
          (map fst (combine (map param (firstn (length answers) (f0 :: rest0)))
                      (map (fun a => Str.strip (snd a)) answers)))).
    { rewrite combine_keys.
      - rewrite <- firstn_map.
        apply nodup_nth_not_before; [assumption|now apply map_nth_error].
      - rewrite !length_map, List.length_firstn. simpl. lia. }
    assert (Hmap :
      dict_set (param fl) (Str.strip msg_last)
        (combine (map param (firstn (length answers) (f0 :: rest0)))
           (map (fun a => Str.strip (snd a)) answers))
      = combine (map param (f0 :: rest0))
          (map Str.strip (map snd answers ++ [msg_last]))).
    { rewrite (dict_set_new_entry _ _ _ Hfresh).
      rewrite <- Hfull at 2. rewrite !map_app. simpl.
      rewrite combine_snoc.
      - now rewrite List.map_map.
      - rewrite !length_map, List.length_firstn. simpl. lia. }
    assert (Hst2 : stage (session_of self2 sid) = "getting_filters")
      by now rewrite Hsess.
    rewrite (chat_last_filter self2 pt_last msg_last sid fl keyword);
      rewrite ?Hsess; simpl; auto.
    rewrite Hmap.
    rewrite (search_with_filters_key self2 self) by (rewrite Hkey; reflexivity).
    destruct (_search_with_filters self _ _ _); simpl;
      rewrite session_of_insert; auto.
Qed.

(** The laptop dialogue: four prompts, in catalog order. *)
Lemma laptop_dialogue_runs_through :
  session_of service_no_keys user = fresh_session
  /\ _extract_product_keyword "I need a laptop" = Some "laptop"
  /\ S (length [(ports_down, "HP"); (ports_down, "₹50,000 - ₹80,000");
                (ports_down, "Intel Core i5")])
     = length (_get_available_filters "laptop")
  /\ map filter_name
       (fst (converse service_no_keys
               ((ports_down, "I need a laptop", user)
                :: answers_to user
                     [(ports_down, "HP"); (ports_down, "₹50,000 - ₹80,000");
                      (ports_down, "Intel Core i5")])))
     = [Some "Brand"; Some "Price Range"; Some "Processor"; Some "RAM"].
Proof.
  assert (Hk : _extract_product_keyword "I need a laptop" = Some "laptop")
    by (vm_compute; reflexivity).
  split; [reflexivity|]. split; [exact Hk|]. split; [reflexivity|].
  destruct (dialogue_runs_through_the_filters service_no_keys user ports_down
              "I need a laptop" "laptop"
              [(ports_down, "HP"); (ports_down, "₹50,000 - ₹80,000");
               (ports_down, "Intel Core i5")]
              ports_down "8GB" eq_refl Hk eq_refl) as (H & _).
  rewrite H. reflexivity.
Defined.

(** ** Stages *)

(** X4. Whatever messages a newly created service has processed, under any
    behaviour of the ports, the stage of every stored session is one of
    [initial], [getting_filters] and [searching]. *)
Theorem stage_always_defined (phi3 serp together openrouter : string)
  (turns : list turn) (sid : string) (s : session) :
  user_sessions (run (new_service phi3 serp together openrouter) turns) !! sid
  = Some s ->
  stage s = "initial" \/ stage s = "getting_filters" \/ stage s = "searching".
Proof.
  intros Hs.
  assert (Hok : session_ok s).
  { eapply run_table_ok; [apply new_service_table_ok|exact Hs]. }
  apply Hok.
Qed.

(** The session a failed laptop search leaves behind. *)
Lemma stage_after_failed_search :
  user_sessions
    (run (new_service EmptyString EmptyString EmptyString EmptyString)
       (laptop_dialogue_no_rupee ++ [says ports_down "8GB"])) !! user
  = Some laptop_session_stuck
  /\ (stage laptop_session_stuck = "initial"
      \/ stage laptop_session_stuck = "getting_filters"
      \/ stage laptop_session_stuck = "searching").
Proof.
  assert (H : user_sessions
                (run (new_service EmptyString EmptyString EmptyString
                        EmptyString)
                   (laptop_dialogue_no_rupee ++ [says ports_down "8GB"]))
              !! user = Some laptop_session_stuck)
    by (vm_compute; reflexivity).
  split; [exact H|].
  exact (stage_always_defined EmptyString EmptyString EmptyString EmptyString
           (laptop_dialogue_no_rupee ++ [says ports_down "8GB"]) user
           laptop_session_stuck H).
Defined.

(** ** The one-shot search and its endpoint *)


Lemma format_product_valid i p :
  Product (format_product i p) = Ok (format_product i p).
Proof. reflexivity. Qed.

Lemma validate_formatted l :
  Forall (fun out => exists p, formats out p) l -> validate_products l = Ok l.
Proof.
  induction 1 as [|out rest (p & i & ->) Hrest IH]; simpl; [reflexivity|].
  now rewrite IH.
Qed.

Lemma Forall_firstn {A} (P : A -> Prop) n l :
  Forall P l -> Forall P (firstn n l).
Proof.
  intros H. revert n. induction H; intros [|n]; simpl; constructor; auto.
Qed.

Lemma Forall2_left_exists {A B} (R : A -> B -> Prop) l1 l2 :
  Forall2 R l1 l2 -> Forall (fun a => exists b, R a b) l1.
Proof. induction 1; constructor; eauto. Qed.

Lemma rank_products_formatted products next :
  Forall (fun out => exists p, formats out p)
    (fst (_rank_products products next)).
Proof.
  unfold _rank_products.
  destruct (format_products_spec (sorted_desc products) next) as (Hf & _).
  exact (Forall2_left_exists _ _ _ Hf).
Qed.


(** ** The filtered retrieval *)

(** X7. A filtered retrieval that returns emits at least one candidate
    whenever the search key is not set or the port does not answer 200: the
    filtered fallback stands in. *)
Theorem filtered_search_nonempty_on_fallback (self : AIShoppingService)
  (pt : ports) (keyword : string) (filters : list (string * string))
  (results : list product) :
  _search_with_filters self pt keyword filters = Ok results ->
  serpapi_key self = EmptyString
  \/ (forall params body, serpapi_get pt params <> Http200 body) ->
  results <> [].
Proof. apply filtered_search_falls_back. Qed.

(** The laptop answers against a port that is down, key set. *)
Lemma laptop_search_port_down :
  _search_with_filters service_search_key ports_down "laptop"
    (laptop_answers "₹50,000 - ₹80,000")
  = Ok (_get_filtered_fallback_products "laptop"
          (laptop_answers "₹50,000 - ₹80,000"))
  /\ (serpapi_key service_search_key = EmptyString
      \/ (forall params body, serpapi_get ports_down params <> Http200 body))
  /\ _get_filtered_fallback_products "laptop"
       (laptop_answers "₹50,000 - ₹80,000") <> [].
Proof.
  assert (H : _search_with_filters service_search_key ports_down "laptop"
                (laptop_answers "₹50,000 - ₹80,000")
              = Ok (_get_filtered_fallback_products "laptop"
                      (laptop_answers "₹50,000 - ₹80,000")))
    by (vm_compute; reflexivity).
  assert (Hp : serpapi_key service_search_key = EmptyString
               \/ (forall params body,
                     serpapi_get ports_down params <> Http200 body)).
  { right. intros params body. discriminate. }
  split; [exact H|]. split; [exact Hp|].
  exact (filtered_search_nonempty_on_fallback service_search_key ports_down
           "laptop" (laptop_answers "₹50,000 - ₹80,000") _ H Hp).
Defined.

Lemma fallback_products_unranked query :
  Forall unranked (_get_fallback_products query).
Proof.
  unfold _get_fallback_products.
  destruct (Str.any_in _ _); [|destruct (Str.any_in _ _)];
    repeat constructor.
Qed.

Lemma filter_loop_unranked filters base :
  Forall unranked base -> Forall unranked (filter_loop filters base).
Proof.
  induction 1 as [|p rest Hp Hrest IH]; simpl; [constructor|].
  destruct (brand_rejects filters p); [assumption|].
  destruct (price_rejects filters p); [assumption|].
  constructor; [exact Hp|assumption].
Qed.

Lemma filtered_fallback_unranked keyword filters :
  Forall unranked (_get_filtered_fallback_products keyword filters).
Proof.
  unfold _get_filtered_fallback_products.
  pose proof (filter_loop_unranked filters _
                (fallback_products_unranked keyword)) as H.
  destruct (filter_loop filters _); [apply fallback_products_unranked|exact H].
Qed.

(** X8. No candidate the filtered retrieval returns carries an identifier, a
    relevance score, a currency or an availability, whether it comes from
    the port or from the fallback: what a completed dialogue emits has none
    of the fields the ranker adds. *)
Theorem filtered_search_results_unranked (self : AIShoppingService)
  (pt : ports) (keyword : string) (filters : list (string * string))
  (results : list product) :
  _search_with_filters self pt keyword filters = Ok results ->
  Forall unranked results.
Proof.
  unfold _search_with_filters.
  destruct (build_search_query keyword filters); [|discriminate].
  pose proof (filtered_fallback_unranked keyword filters) as Hfb.
  destruct (negb _); [now intros [= <-]|].
  destruct (price_bounds filters) as [[lo hi]|]; [|now intros [= <-]].
  destruct (serpapi_get pt _) as [body| |]; try (now intros [= <-]).
  intros [= <-]. clear. induction body; simpl; constructor; auto.
  repeat split.
Qed.

(** The candidates the laptop dialogue emits with no key set. *)
Lemma laptop_results_unranked :
  _search_with_filters service_no_keys ports_down "laptop"
    (laptop_answers "₹50,000 - ₹80,000")
  = Ok (_get_filtered_fallback_products "laptop"
          (laptop_answers "₹50,000 - ₹80,000"))
  /\ length (_get_filtered_fallback_products "laptop"
               (laptop_answers "₹50,000 - ₹80,000")) = 1
  /\ Forall unranked
       (_get_filtered_fallback_products "laptop"
          (laptop_answers "₹50,000 - ₹80,000")).
Proof.
  assert (H : _search_with_filters service_no_keys ports_down "laptop"
                (laptop_answers "₹50,000 - ₹80,000")
              = Ok (_get_filtered_fallback_products "laptop"
                      (laptop_answers "₹50,000 - ₹80,000")))
    by (vm_compute; reflexivity).
  split; [exact H|]. split; [vm_compute; reflexivity|].
  exact (filtered_search_results_unranked service_no_keys ports_down
           "laptop" (laptop_answers "₹50,000 - ₹80,000") _ H).
Defined.

(** ** When the filtered retrieval raises *)

Lemma split_from_nonempty sep s :
  forall k cur, Str.split_from k sep cur s <> [].
Proof.
  induction s as [|c r IH]; intros k cur; simpl; [discriminate|].
  destruct k; [|apply IH].
  destruct (Str.startswith sep (String c r)); [discriminate|apply IH].
Qed.

Lemma split_second c sep s :
  forall cur,
    nth_error (Str.split_from 0 (String c sep) cur s) 1 = None
    <-> Str.contains (String c sep) s = false.
Proof.
  induction s as [|a r IH]; intros cur.
  - simpl. tauto.
  - cbn [Str.split_from Str.contains].
    destruct (Str.startswith (String c sep) (String a r)) eqn:E.
    + cbn [nth_error orb]. split; [|discriminate].
      intros H. exfalso.
      destruct (Str.split_from _ _ _ r) eqn:Hs; [|discriminate].
      now apply split_from_nonempty in Hs.
    + cbn [orb]. apply IH.
Qed.

(** X9. The filtered retrieval raises exactly when the price answer holds
    Under and no rupee sign; every other input, whatever the ports do, gets
    a list of candidates. *)
Theorem filtered_search_raises_iff (self : AIShoppingService) (pt : ports)
  (keyword : string) (filters : list (string * string)) :
  (exists e, _search_with_filters self pt keyword filters = Raise e)
  <-> exists price_filter,
      dict_get "price" filters = Some price_filter
      /\ Str.contains "Under" price_filter = true
      /\ Str.contains "₹" price_filter = false.
Proof.
  unfold _search_with_filters, build_search_query.
  destruct (dict_get "price" filters) as [pf|].
  - destruct (Str.contains "Under" pf) eqn:Hu.
    + destruct (nth_error (Str.split "₹" pf) 1) as [part|] eqn:Hn.
      * split.
        { intros [e He]. exfalso.
          destruct (negb _); [discriminate|].
          destruct (price_bounds filters) as [[lo hi]|]; [|discriminate].
          destruct (serpapi_get pt _); discriminate. }
        { intros (pf' & [= <-] & _ & Hc). exfalso.
          apply (split_second _ _ pf EmptyString) in Hc.
          unfold Str.split in Hn. congruence. }
      * split; [|eauto].
        intros _. exists pf. split; [reflexivity|]. split; [exact Hu|].
        now apply (split_second _ _ pf EmptyString).
    + split.
      * intros [e He]. exfalso.
        destruct (Str.contains "-" pf);
          (destruct (negb _); [discriminate|]);
          (destruct (price_bounds filters) as [[lo hi]|]; [|discriminate]);
          destruct (serpapi_get pt _); discriminate.
      * intros (pf' & [= <-] & Hu' & _). congruence.
  - split.
    + intros [e He]. exfalso.
      destruct (negb _); [discriminate|].
      destruct (price_bounds filters) as [[lo hi]|]; [|discriminate].
      destruct (serpapi_get pt _); discriminate.
    + intros (pf' & Hpf & _). discriminate.
Qed.

(** ** Keywords of the vocabulary that are never recognized *)

Lemma append_cons c (a b : string) : String c a +:+ b = String c (a +:+ b).
Proof. reflexivity. Qed.

Lemma append_nil (b : string) : EmptyString +:+ b = b.
Proof. reflexivity. Qed.

Lemma append_assoc_str (a b c : string) : (a +:+ b) +:+ c = a +:+ (b +:+ c).
Proof.
  induction a as [|x a IH]; [reflexivity|].
  now rewrite !append_cons, IH.
Qed.

Lemma startswith_spec p s :
  Str.startswith p s = true <-> exists t, s = p +:+ t.
Proof.
  revert s. induction p as [|a p IH]; intros s; simpl.
  - split; eauto.
  - destruct s as [|b s].
    + split; [discriminate|]. intros [t Ht]. discriminate.
    + rewrite andb_true_iff, IH. split.
      * intros [Hab [t ->]]. apply Ascii.eqb_eq in Hab as ->.
        exists t. now rewrite append_cons.
      * intros [t Ht]. rewrite append_cons in Ht. injection Ht as -> ->.
        split; [apply Ascii.eqb_refl|eauto].
Qed.

Lemma contains_spec sub s :
  Str.contains sub s = true <-> exists pre post, s = pre +:+ sub +:+ post.
Proof.
  induction s as [|c r IH]; simpl; rewrite orb_true_iff, startswith_spec.
  - split.
    + intros [[t Ht]|H]; [|discriminate]. now exists EmptyString, t.
    + intros (pre & post & H). left.
      destruct pre; [rewrite append_nil in H; eauto|discriminate].
  - rewrite IH. split.
    + intros [[t Ht]|(pre & post & ->)].
      * now exists EmptyString, t.
      * now exists (String c pre), post.
    + intros (pre & post & H). destruct pre as [|c' pre].
      * left. rewrite append_nil in H. eauto.
      * right. rewrite append_cons in H. injection H as -> ->. eauto.
Qed.

Lemma contains_trans a b s :
  Str.contains a b = true -> Str.contains b s = true ->
  Str.contains a s = true.
Proof.
  rewrite !contains_spec.
  intros (p1 & q1 & ->) (p2 & q2 & ->).
  exists (p2 +:+ p1), (q1 +:+ q2).
  now rewrite !append_assoc_str.
Qed.

Lemma find_first_hit {A} (f : A -> bool) l1 x l2 :
  f x = true ->
  exists y, List.find f (l1 ++ x :: l2) = Some y /\ In y (l1 ++ [x]).
Proof.
  intros Hx. induction l1 as [|a l1 IH]; simpl.
  - rewrite Hx. eauto.
  - destruct (f a); [eauto|].
    destruct IH as (y & Hy & Hin). eauto.
Qed.

Lemma extract_hit msg l1 x l2 :
  product_keywords = l1 ++ x :: l2 ->
  Str.contains x (Str.lower msg) = true ->
  exists y, _extract_product_keyword msg = Some y /\ In y (l1 ++ [x]).
Proof.
  intros Hsplit Hx. unfold _extract_product_keyword. rewrite Hsplit.
  now apply find_first_hit.
Qed.

Lemma extract_contains msg k :
  _extract_product_keyword msg = Some k ->
  Str.contains k (Str.lower msg) = true.
Proof.
  unfold _extract_product_keyword. intros H.
  now apply List.find_some in H.
Qed.

Lemma shadowed_never msg k x l1 l2 :
  product_keywords = l1 ++ x :: l2 ->
  Str.contains x k = true ->
  ~ In k (l1 ++ [x]) ->
  _extract_product_keyword msg <> Some k.
Proof.
  intros Hsplit Hxk Hnot Hk.
  pose proof (extract_contains msg k Hk) as Hc.
  destruct (extract_hit msg l1 x l2 Hsplit (contains_trans _ _ _ Hxk Hc))
    as (y & Hy & Hin).
  congruence.
Qed.

Ltac not_in_list :=
  let H := fresh in
  intros H; simpl in H;
  repeat (destruct H as [H|H]; [discriminate H|]); exact H.

(** X10. Six entries of the vocabulary are never recognized, because an
    earlier entry is contained in them: iphone, earphones and headphones
    (phone), bluetooth speaker (speaker), smartwatch (watch) and smart tv
    (tv). A message that holds phone anywhere, so every message about
    headphones, earphones or an iphone, is recognized as smartphone or phone
    and opens the smartphone filters. *)
Theorem shadowed_keywords_never_recognized (msg : string) :
  (forall k, In k shadowed_keywords -> _extract_product_keyword msg <> Some k)
  /\ (Str.contains "phone" (Str.lower msg) = true ->
      exists k,
        _extract_product_keyword msg = Some k
        /\ (k = "smartphone" \/ k = "phone")
        /\ map name (_get_available_filters k)
           = ["Brand"; "Price Range"; "Storage"; "RAM"]).
Proof.
  split.
  - intros k Hk. simpl in Hk.
    destruct Hk as [<-|[<-|[<-|[<-|[<-|[<-|[]]]]]]].
    + apply (shadowed_never msg _ "phone" ["smartphone"]
               (skipn 2 product_keywords)); [reflexivity|reflexivity|not_in_list].
    + apply (shadowed_never msg _ "speaker" (firstn 10 product_keywords)
               (skipn 11 product_keywords));
        [reflexivity|reflexivity|not_in_list].
    + apply (shadowed_never msg _ "phone" ["smartphone"]
               (skipn 2 product_keywords)); [reflexivity|reflexivity|not_in_list].
    + apply (shadowed_never msg _ "phone" ["smartphone"]
               (skipn 2 product_keywords)); [reflexivity|reflexivity|not_in_list].
    + apply (shadowed_never msg _ "watch" (firstn 18 product_keywords)
               (skipn 19 product_keywords));
        [reflexivity|reflexivity|not_in_list].
    + apply (shadowed_never msg _ "tv" (firstn 24 product_keywords)
               (skipn 25 product_keywords));
        [reflexivity|reflexivity|not_in_list].
  - intros Hp.
    destruct (extract_hit msg ["smartphone"] "phone" (skipn 2 product_keywords)
                eq_refl Hp) as (y & Hy & Hin).
    exists y. split; [exact Hy|].
    simpl in Hin. destruct Hin as [<-|[<-|[]]]; split; auto.
Qed.

(** A message about headphones opens the smartphone filters. *)
Example headphones_taken_for_phone :
  _extract_product_keyword "I want wireless headphones" = Some "phone"
  /\ map name (_get_available_filters "headphones")
     = ["Brand"; "Price Range"; "Type"; "Features"].
Proof. split; vm_compute; reflexivity. Qed.

(** ** What the scorer leaves alone *)

Lemma update_same_listing a p : same_listing (update a p) p.
Proof. repeat split. Qed.

Lemma decay_scoring_listing e products :
  forall i, Forall2 same_listing (decay_scoring e i products) products.
Proof.
  induction products as [|p rest IH]; intros i; simpl; constructor;
    auto using update_same_listing.
Qed.

Lemma analyze_each_listing pt q products :
  forall i, Forall2 same_listing (analyze_each pt q i products) products.
Proof.
  induction products as [|p rest IH]; intros i; simpl; constructor; auto.
  unfold analyze_one.
  destruct (ai_post pt i q p) as [[a|]| |]; apply update_same_listing.
Qed.


(** ** When the ranking keeps the order of retrieval *)

Lemma float_ltb_irrefl (x : float) : PrimFloat.ltb x x = false.
Proof.
  rewrite FloatAxioms.ltb_spec. unfold SFltb.
  destruct (Prim2SF x) as [?|?| |? ? ?]; cbn [SFcompare];
    change (PosDef.Pos.compare_cont Eq) with Pos.compare;
    try reflexivity; sf_cases;
    rewrite ?Z.compare_refl, ?Pos.compare_refl; reflexivity.
Qed.

Lemma sorted_desc_same_key k l :
  Forall (fun p => sort_key p = k) l -> sorted_desc l = l.
Proof.
  induction 1 as [|x r Hx Hr IH]; [reflexivity|].
  cbn [sorted_desc fold_right]. fold (sorted_desc r). rewrite IH.
  destruct r as [|y r']; [reflexivity|]. cbn [insert_desc].
  inversion Hr as [|? ? Hy _]; subst.
  now rewrite Hy, float_ltb_irrefl.
Qed.

Lemma analyze_each_neutral pt q products :
  scoring_fails pt ->
  forall i,
    Forall (fun p => relevance_score p = Some 0.5%float)
      (analyze_each pt q i products).
Proof.
  intros Hfail. induction products as [|p rest IH]; intros i; simpl;
    constructor; auto.
  unfold analyze_one.
  destruct (ai_post pt i q p) as [[a|]| |] eqn:E; try reflexivity.
  now apply Hfail in E.
Qed.



Lemma fallback_scores_sorted e (l : list product) :
  length l <= 10 ->
  sorted_desc (decay_scoring e 0 l) = decay_scoring e 0 l.
Proof.
  intros Hlen.
  do 11 (destruct l as [|? l]; [vm_compute; reflexivity|]).
  simpl in Hlen. lia.
Qed.

(** X13. With no scoring port configured, up to ten candidates (the number
    the service asks the search port for) come out of the ranker in the
    order of retrieval: the decaying fallback scores are already in
    descending order. *)
Theorem fallback_scoring_keeps_retrieval_order (self : AIShoppingService)
  (pt : ports) (candidates : list product) (original_query : string)
  (next : uuid) :
  together_api_key self = EmptyString ->
  openrouter_api_key self = EmptyString ->
  length candidates <= 10 ->
  Forall2 formats
    (fst (_rank_products
            (_analyze_products_with_ai self pt candidates original_query)
            next))
    (_analyze_products_with_ai self pt candidates original_query).
Proof.
  intros Ht Ho Hlen. rewrite (unconfigured_scorer self pt _ _ Ht Ho).
  unfold _rank_products. rewrite (fallback_scores_sorted _ _ Hlen).
  apply format_products_spec.
Qed.

(** The three catalog candidates with no key set. *)
Lemma fallback_scoring_three_in_order :
  together_api_key service_no_keys = EmptyString
  /\ openrouter_api_key service_no_keys = EmptyString
  /\ length three_candidates <= 10
  /\ map title
       (fst (_rank_products
               (_analyze_products_with_ai service_no_keys ports_down
                  three_candidates "phone") 0))
     = map title three_candidates
  /\ Forall2 formats
       (fst (_rank_products
               (_analyze_products_with_ai service_no_keys ports_down
                  three_candidates "phone") 0))
       (_analyze_products_with_ai service_no_keys ports_down
          three_candidates "phone").
Proof.
  split; [reflexivity|]. split; [reflexivity|].
  split; [vm_compute; lia|]. split; [vm_compute; reflexivity|].
  apply (fallback_scoring_keeps_retrieval_order service_no_keys ports_down
           three_candidates "phone" 0 eq_refl eq_refl).
  vm_compute; lia.
Defined.

(** ** The chat endpoint *)

Lemma serve_run self requests :
  serve self requests = run self (answers_to "user_session" requests).
Proof.
  revert self. induction requests as [|[pt content] rest IH]; intros self;
    [reflexivity|].
  cbn [serve run fold_left answers_to map chat fst snd].
  fold (serve (snd (chat_with_agent self pt content)) rest).
  fold (answers_to "user_session" rest).
  fold (run (snd (process_chat_message self pt content "user_session"))
          (answers_to "user_session" rest)).
  rewrite IH. f_equal. unfold chat_with_agent.
  now destruct (process_chat_message self pt content "user_session").
Qed.

Lemma run_other_key self turns other :
  Forall (fun t => snd t <> other) turns ->
  user_sessions (run self turns) !! other = user_sessions self !! other.
Proof.
  intros H. revert self.
  induction H as [|[[pt msg] sid] rest Hne Hrest IH]; intros self;
    [reflexivity|].
  cbn [run fold_left chat]. fold (run (snd (process_chat_message self pt msg sid)) rest).
  rewrite IH. destruct (chat_result_shape self pt msg sid) as (s' & ->).
  simpl in *. now rewrite lookup_insert_ne.
Qed.

(** X14. All requests to the chat endpoint are one conversation: the
    service after a sequence of requests is the service after the same
    messages sent under the key user_session, and the session table of a
    newly created service never gets another key, so requests of different
    clients answer each other's filter prompts. *)
Theorem chat_endpoint_single_session (phi3 serp together openrouter : string)
  (requests : list (ports * string)) (other : string) :
  other <> "user_session" ->
  serve (new_service phi3 serp together openrouter) requests
  = run (new_service phi3 serp together openrouter)
      (answers_to "user_session" requests)
  /\ user_sessions
       (serve (new_service phi3 serp together openrouter) requests) !! other
     = None.
Proof.
  intros Hne. split; [apply serve_run|].
  rewrite serve_run, run_other_key; [apply lookup_empty|].
  unfold answers_to. apply List.Forall_forall. intros t Hin.
  apply in_map_iff in Hin as (a & <- & _). simpl. congruence.
Qed.

(** Two requests; no session under another key. *)
Lemma chat_endpoint_two_requests :
  "someone else" <> "user_session"
  /\ cr_filter_name
       (fst (chat_with_agent
               (serve service_no_keys [(ports_down, "I need a laptop")])
               ports_down "HP")) = "Price Range"
  /\ serve (new_service EmptyString EmptyString EmptyString EmptyString)
       [(ports_down, "I need a laptop"); (ports_down, "HP")]
     = run (new_service EmptyString EmptyString EmptyString EmptyString)
         (answers_to "user_session"
            [(ports_down, "I need a laptop"); (ports_down, "HP")])
  /\ user_sessions
       (serve (new_service EmptyString EmptyString EmptyString EmptyString)
          [(ports_down, "I need a laptop"); (ports_down, "HP")])
     !! "someone else" = None.
Proof.
  assert (Hne : "someone else" <> "user_session") by discriminate.
  split; [exact Hne|]. split; [vm_compute; reflexivity|].
  exact (chat_endpoint_single_session EmptyString EmptyString EmptyString
           EmptyString [(ports_down, "I need a laptop"); (ports_down, "HP")]
           "someone else" Hne).
Defined.

(** ** The one-shot search without keys *)

Lemma fallback_products_at_most_two query :
  length (_get_fallback_products query) <= 2.
Proof.
  unfold _get_fallback_products.
  destruct (Str.any_in _ _); [|destruct (Str.any_in _ _)]; simpl; lia.
Qed.

(** X15. Without a search key and without a scoring key the one-shot search
    asks no port for products or scores: whatever the ports do, it returns
    the whole fallback catalog of the query, in catalog order, formatted
    under the next identifiers, scored by the decaying fallback, with the
    explanation that the API is unavailable. *)
Theorem one_shot_search_offline (self : AIShoppingService) (pt : ports)
  (query : string) (next : uuid) :
  serpapi_key self = EmptyString ->
  together_api_key self = EmptyString ->
  openrouter_api_key self = EmptyString ->
  fst (process_search_query self pt query next)
  = {| sr_products :=
         fst (format_products next
                (decay_scoring ("Product matches your search for: " +:+ query)
                   0 (_get_fallback_products query)));
       sr_explanation :=
         "Showing sample results for: " +:+ query
         +:+ " (API temporarily unavailable)";
       sr_search_id := next + length (_get_fallback_products query) |}.
Proof.
  intros Hs Ht Ho. unfold process_search_query, _search_products_with_serpapi.
  rewrite Hs. simpl negb. cbv iota.
  rewrite (unconfigured_scorer self pt _ _ Ht Ho).
  unfold _rank_products.
  pose proof (fallback_products_at_most_two query) as H2.
  rewrite fallback_scores_sorted by lia.
  destruct (format_products_spec
              (decay_scoring ("Product matches your search for: " +:+ query) 0
                 (_get_fallback_products query)) next) as (_ & _ & Hn).
  pose proof (format_products_length
                (decay_scoring ("Product matches your search for: " +:+ query) 0
                   (_get_fallback_products query)) next) as Hl.
  rewrite decay_scoring_length in Hn, Hl.
  destruct (format_products next _) as [ranked next1]. simpl in *.
  unfold search_reply. simpl. subst next1.
  rewrite firstn_all2 by lia. reflexivity.
Qed.

(** A laptop query with no key set. *)
Lemma laptop_search_offline :
  serpapi_key service_no_keys = EmptyString
  /\ together_api_key service_no_keys = EmptyString
  /\ openrouter_api_key service_no_keys = EmptyString
  /\ map (fun p => (title p, relevance_score p))
       (sr_products
          (fst (process_search_query service_no_keys ports_no_result
                  "gaming laptop" 7)))
     = [(Some "HP Pavilion 15 Intel Core i5 12th Gen Laptop", Some 1%float)]
  /\ sr_search_id
       (fst (process_search_query service_no_keys ports_no_result
               "gaming laptop" 7)) = 8.
Proof.
  split; [reflexivity|]. split; [reflexivity|]. split; [reflexivity|].
  rewrite (one_shot_search_offline service_no_keys ports_no_result
             "gaming laptop" 7 eq_refl eq_refl eq_refl).
  split; vm_compute; reflexivity.
Defined.

(** ** Ranking twice *)

Lemma format_products_forget_id l :
  forall n1 n2,
    map forget_id (fst (format_products n1 l))
    = map forget_id (fst (format_products n2 l)).
Proof.
  induction l as [|p rest IH]; intros n1 n2; simpl; [reflexivity|].
  specialize (IH (S n1) (S n2)).
  destruct (format_products (S n1) rest), (format_products (S n2) rest).
  simpl in *. now rewrite IH.
Qed.

(** X16. Ranking the same candidates twice gives the same products in the
    same order, whatever identifiers the supply hands out: two rankings
    differ in the identifiers only. *)
Theorem ranking_twice_differs_in_ids_only (candidates : list product)
  (n1 n2 : uuid) :
  map forget_id (fst (_rank_products candidates n1))
  = map forget_id (fst (_rank_products candidates n2)).
Proof. apply format_products_forget_id. Qed.

(** ** Case of the letters *)

Lemma to_lower_idem c : Str.to_lower (Str.to_lower c) = Str.to_lower c.
Proof. destruct c as [[] [] [] [] [] [] [] []]; reflexivity. Qed.

Lemma lower_idem s : Str.lower (Str.lower s) = Str.lower s.
Proof.
  induction s as [|c r IH]; simpl; [reflexivity|].
  now rewrite to_lower_idem, IH.
Qed.

(** X17. The three matchers over a message (keyword extraction, canned
    reply, intent detection) do not depend on the case of its ASCII
    letters: a message and its lower-cased form get the same keyword, the
    same reply and the same intent, and the intent is product_search exactly
    when a search word occurs. *)
Theorem matchers_ignore_case (msg : string) :
  _extract_product_keyword (Str.lower msg) = _extract_product_keyword msg
  /\ _generate_conversational_response (Str.lower msg)
     = _generate_conversational_response msg
  /\ _analyze_message_intent (Str.lower msg) = _analyze_message_intent msg
  /\ (intent (_analyze_message_intent msg) = "product_search"
      <-> exists w, In w search_keywords
                    /\ Str.contains w (Str.lower msg) = true).
Proof.
  unfold _extract_product_keyword, _generate_conversational_response,
    _analyze_message_intent.
  rewrite lower_idem. cbn [intent].
  split; [reflexivity|]. split; [reflexivity|]. split; [reflexivity|].
  unfold Str.any_in. rewrite <- existsb_exists.
  destruct (existsb _ search_keywords); split; intros H;
    try reflexivity; discriminate H.
Qed.

(** ** The shape of the filter catalog *)

Lemma filters_well_formed keyword :
  forallb filter_well_formed (_get_available_filters keyword) = true.
Proof.
  unfold _get_available_filters.
  repeat (destruct (Str.mem keyword _); [vm_compute; reflexivity|]).
  vm_compute; reflexivity.
Qed.

(** X18. For every keyword the catalog returns two to four filters with
    pairwise distinct parameter keys, a brand and a price filter among
    them; every filter offers at least one option and has a parameter key
    the filtered retrieval reads; and no offered option holds Under without
    a rupee sign, so a dialogue answered from the offered options never
    makes the retrieval raise. *)
Theorem filter_catalog_shape (keyword : string) :
  2 <= length (_get_available_filters keyword) <= 4
  /\ NoDup (map param (_get_available_filters keyword))
  /\ In "brand" (map param (_get_available_filters keyword))
  /\ In "price" (map param (_get_available_filters keyword))
  /\ Forall
       (fun f =>
          options f <> []
          /\ In (param f) read_keys
          /\ forall o, In o (options f) ->
                       Str.contains "Under" o = true ->
                       Str.contains "₹" o = true)
       (_get_available_filters keyword).
Proof.
  split; [|split; [apply filters_params_nodup|]].
  { unfold _get_available_filters.
    repeat (destruct (Str.mem keyword _); [simpl; lia|]). simpl; lia. }
  split; [|split].
  - unfold _get_available_filters.
    repeat (destruct (Str.mem keyword _); [simpl; tauto|]). simpl; tauto.
  - unfold _get_available_filters.
    repeat (destruct (Str.mem keyword _); [simpl; tauto|]). simpl; tauto.
  - apply List.Forall_forall. intros f Hf.
    pose proof (filters_well_formed keyword) as Hw.
    rewrite forallb_forall in Hw. specialize (Hw f Hf).
    unfold filter_well_formed in Hw.
    apply andb_prop in Hw as [Hw Hopt]. apply andb_prop in Hw as [Hne Hkey].
    split; [|split].
    + apply negb_true_iff, bool_decide_eq_false in Hne. exact Hne.
    + unfold Str.mem in Hkey. apply existsb_exists in Hkey as (k & Hk & E).
      apply String.eqb_eq in E. now subst.
    + intros o Ho Hu. rewrite forallb_forall in Hopt.
      specialize (Hopt o Ho). now rewrite Hu in Hopt.
Qed.

(** ** A price answer that asks for nothing *)

(** X19. A price answer that holds neither Under nor a hyphen, such as the
    Above options the catalog offers, has no effect: the filtered fallback
    rejects no candidate on its price, and the request to the search port
    carries no price bound. *)
Theorem unbounded_price_answer_ignored (filters : list (string * string))
  (price_filter : string) :
  dict_get "price" filters = Some price_filter ->
  Str.contains "Under" price_filter = false ->
  Str.contains "-" price_filter = false ->
  (forall p, price_rejects filters p = false)
  /\ price_bounds filters = Ok (None, None).
Proof.
  intros Hp Hu Hh.
  assert (Hur : Str.contains "Under ₹" price_filter = false).
  { destruct (Str.contains "Under ₹" price_filter) eqn:E; [|reflexivity].
    rewrite <- Hu. symmetry.
    apply (contains_trans "Under" "Under ₹"); [reflexivity|exact E]. }
  split.
  - intros p. unfold price_rejects. rewrite Hp, Hur, Hh.
    now destruct (Str.int _).
  - unfold price_bounds. now rewrite Hp, Hur, Hh.
Qed.

(** The Above option of the smartphone catalog lets the two phones of the
    fallback through, whatever their price. *)
Lemma above_answer_filters_nothing :
  dict_get "price" [("price", "Above ₹60,000")] = Some "Above ₹60,000"
  /\ Str.contains "Under" "Above ₹60,000" = false
  /\ Str.contains "-" "Above ₹60,000" = false
  /\ length (_get_filtered_fallback_products "phone"
               [("price", "Above ₹60,000")]) = 2
  /\ (forall p, price_rejects [("price", "Above ₹60,000")] p = false)
  /\ price_bounds [("price", "Above ₹60,000")] = Ok (None, None).
Proof.
  split; [reflexivity|]. split; [vm_compute; reflexivity|].
  split; [vm_compute; reflexivity|]. split; [vm_compute; reflexivity|].
  apply (unbounded_price_answer_ignored [("price", "Above ₹60,000")]
           "Above ₹60,000"); vm_compute; reflexivity.
Defined.

(** One turn of the laptop dialogue, beside a session of another key. *)
Lemma chat_turn_frame_two_sessions :
  is_Some
    (user_sessions
       (snd (process_chat_message
               (run service_no_keys [(ports_down, "I need a phone", "other")])
               ports_down "I need a laptop" user)) !! user)
  /\ user_sessions
       (snd (process_chat_message
               (run service_no_keys [(ports_down, "I need a phone", "other")])
               ports_down "I need a laptop" user)) !! "other"
     = user_sessions
         (run service_no_keys [(ports_down, "I need a phone", "other")])
       !! "other".
Proof.
  destruct (chat_turn_frame
              (run service_no_keys [(ports_down, "I need a phone", "other")])
              ports_down "I need a laptop" user) as (H1 & H2 & _).
  split; [exact H1|]. apply H2. discriminate.
Defined.

(** ** The one-shot search on live results *)



(** ** The fallback catalog *)

(** X21. Every candidate of the fallback catalog, for every query, holds
    all the fields the ranker has a display default for, and its price
    parses to a positive number: the ranker's defaults are not used on a
    fallback candidate, and the price filter of the filtered fallback is
    applied to every one of them. *)
Theorem fallback_catalog_fully_listed (query : string) :
  1 <= length (_get_fallback_products query) <= 2
  /\ Forall
       (fun p =>
          fully_listed p
          /\ (exists n, numeric_price (default "₹0" (price p)) = Some n
                        /\ (0 < n)%Z)
          /\ forall i,
              title (format_product i p) = title p
              /\ price (format_product i p) = price p
              /\ description (format_product i p) = description p
              /\ image_url (format_product i p) = image_url p
              /\ source (format_product i p) = source p
              /\ url (format_product i p) = url p)
       (_get_fallback_products query).
Proof.
  unfold _get_fallback_products.
  destruct (Str.any_in _ _); [|destruct (Str.any_in _ _)].
  - split; [simpl; lia|].
    repeat constructor; simpl; eauto;
      (eexists; split; [vm_compute; reflexivity|lia]).
  - split; [simpl; lia|].
    repeat constructor; simpl; eauto;
      (eexists; split; [vm_compute; reflexivity|lia]).
  - split; [simpl; lia|].
    repeat constructor; simpl; eauto;
      (eexists; split; [vm_compute; reflexivity|lia]).
Qed.
